(** * Interactive point collection: click_painting_corners.py and click_points.py

    A shallow embedding of the two scripts of [Project 3].  Both are
    sequential programs over an operator (keyboard lines and mouse
    gestures), a file system, the set of open figure windows and the
    console.  The scripts become programs of a small state-and-exception
    monad over a [world]; what they print, prompt, draw and save is kept
    in the world, so that the properties of the specification are
    statements about the world a run ends in. *)

From Stdlib Require Import Floats.PrimFloat.
From Stdlib Require Import String Ascii ZArith Lia.
From stdpp Require Import base option list gmap strings.

Set Warnings "-inexact-float".
Open Scope string_scope.
Open Scope list_scope.
Open Scope nat_scope.

(** ** Values *)

(** A point is what [ginput] hands back for a click: [(xdata, ydata)],
    two binary64 numbers. *)
Definition point : Type := float * float.

(** A numeric array: its shape and its elements in row-major order. *)
Record ndarray := NdArray { nd_shape : list nat; nd_data : list float }.

(** [np.array(points)] on a list of pairs.  The empty list gives the
    one-dimensional array of shape [(0,)], a list of [N > 0] pairs the array
    of shape [(N, 2)]. *)
Definition np_array (points : list point) : ndarray :=
  match points with
  | [] => NdArray [0] []
  | _ :: _ => NdArray [length points; 2] (flat_map (fun p => [p.1; p.2]) points)
  end.

(** [len(a)]: the extent of the first axis. *)
Definition np_len (a : ndarray) : nat := hd 0 (nd_shape a).

(** Iterating an array of pairs, as [for (x, y) in a] does. *)
Fixpoint pairs_of (d : list float) : list point :=
  match d with
  | x :: y :: d' => (x, y) :: pairs_of d'
  | _ => []
  end.

Definition np_rows (a : ndarray) : list point := pairs_of (nd_data a).

(** The slice [points[:n]]. *)
Definition slice_to {A} (n : nat) (points : list A) : list A := take n points.

(** ** Console text *)

(** An f-string is kept as the sequence of its pieces; how a number is
    rendered is the interpreter's business.  [Flt d x] is [{x:.df}],
    [Repr a] is [repr(a)] of an array. *)
Inductive tok :=
| Lit (s : string)
| Int (n : nat)
| Flt (digits : nat) (x : float)
| Repr (a : ndarray).

Definition text : Type := list tok.

Definition nl : string := String "010" "".

(** [s * n] on strings. *)
Fixpoint str_mul (s : string) (n : nat) : string :=
  match n with
  | O => ""
  | S n' => s +:+ str_mul s n'
  end.

Definition rule : string := str_mul "=" 70.

(** [str.lower] on the ASCII letters; every other byte is kept, so the
    result is ["y"] exactly for the answers ["y"] and ["Y"]. *)
Definition lower_ascii (c : ascii) : ascii :=
  let n := nat_of_ascii c in
  if (65 <=? n)%nat && (n <=? 90)%nat then ascii_of_nat (n + 32) else c.

Fixpoint lower (s : string) : string :=
  match s with
  | EmptyString => EmptyString
  | String c s' => String (lower_ascii c) (lower s')
  end.

(** ** Exceptions *)

Inductive exn :=
| FileNotFoundError (msg : text)
| ValueError (msg : text)
| OSError (msg : text)
| IndexError (msg : text)
| KeyError (key : nat)
| EOFError (msg : text)
| KeyboardInterrupt.

(** [isinstance(e, Exception)]: [KeyboardInterrupt] derives from
    [BaseException] only. *)
Definition is_Exception (e : exn) : bool :=
  match e with
  | KeyboardInterrupt => false
  | _ => true
  end.

(** [str(e)], as [{e}] in an f-string renders it. *)
Definition exn_str (e : exn) : text :=
  match e with
  | FileNotFoundError msg | ValueError msg | OSError msg | IndexError msg
  | EOFError msg => msg
  | KeyError k => [Int k]
  | KeyboardInterrupt => []
  end.

(** ** The world *)

Definition image : Type := list Z.

Inductive file :=
| FImage (img : image)                          (* decodes as an image *)
| FNpz (entries : list (string * ndarray))      (* written by [np.savez] *)
| FRaw (bytes : list Z).                        (* anything else *)

(** What the operator does at a prompt. *)
Inductive keyboard := Line (s : string) | CtrlC.

(** What the operator does in front of a figure: a click inside the axes,
    a right click, Enter, or Ctrl-C while the figure waits for clicks. *)
Inductive gesture := Click (p : point) | Undo | Enter | Interrupt.

Inductive event :=
| EPrint (t : text)
| EPrompt (t : text)
| EFigure (fig : nat)
| EImshow (fig : nat) (img : image)
| ETitle (fig : nat) (t : text)
| EAxisOff (fig : nat)
| EGinput (fig : nat) (n : Z)
| EClose (fig : nat).

Record world := World {
  w_fs : gmap string file;          (* the working directory *)
  w_figs : list nat;                (* numbers of the open figures *)
  w_stdin : list keyboard;          (* answers still to come *)
  w_mouse : list (list gesture);    (* one script per click session *)
  w_out : list event                (* console and display, oldest first *)
}.

Definition emit (e : event) (w : world) : world :=
  World (w_fs w) (w_figs w) (w_stdin w) (w_mouse w) (w_out w ++ [e]).

Definition set_fs (fs : gmap string file) (w : world) : world :=
  World fs (w_figs w) (w_stdin w) (w_mouse w) (w_out w).

Definition set_figs (figs : list nat) (w : world) : world :=
  World (w_fs w) figs (w_stdin w) (w_mouse w) (w_out w).

Definition set_stdin (k : list keyboard) (w : world) : world :=
  World (w_fs w) (w_figs w) k (w_mouse w) (w_out w).

Definition set_mouse (m : list (list gesture)) (w : world) : world :=
  World (w_fs w) (w_figs w) (w_stdin w) m (w_out w).

(** ** The monad *)

Inductive result (A : Type) :=
| Ok (a : A)
| Raise (e : exn).
Arguments Ok {A} a.
Arguments Raise {A} e.

Definition M (A : Type) : Type := world -> result A * world.

Definition ret {A} (a : A) : M A := fun w => (Ok a, w).

Definition raise {A} (e : exn) : M A := fun w => (Raise e, w).

Definition bind {A B} (m : M A) (k : A -> M B) : M B :=
  fun w =>
    match m w with
    | (Ok a, w') => k a w'
    | (Raise e, w') => (Raise e, w')
    end.

(** When two programs are compared, their names are unfolded before [bind]. *)
Strategy 100 [bind].

Notation "'let*' x := m 'in' k" := (bind m (fun x => k))
  (at level 10, x name, m at level 100, k at level 200).
Notation "m >> k" := (bind m (fun _ => k))
  (at level 180, k at level 200, right associativity).

(** ** The library calls the scripts make *)

Definition print (t : text) : M unit :=
  fun w => (Ok tt, emit (EPrint t) w).

(** [input(prompt)]: the prompt is written, then a line is read.  Ctrl-C at
    the prompt raises [KeyboardInterrupt], a closed input
    [EOFError("EOF when reading a line")]. *)
Definition input (prompt : text) : M string :=
  fun w =>
    let w1 := emit (EPrompt prompt) w in
    match w_stdin w with
    | [] => (Raise (EOFError [Lit "EOF when reading a line"]), w1)
    | Line s :: rest => (Ok s, set_stdin rest w1)
    | CtrlC :: rest => (Raise KeyboardInterrupt, set_stdin rest w1)
    end.

Definition os_path_exists (path : string) : M bool :=
  fun w => (Ok (bool_decide (is_Some (w_fs w !! path))), w).

Definition plt_imread (path : string) : M image :=
  fun w =>
    match w_fs w !! path with
    | Some (FImage img) => (Ok img, w)
    | Some _ => (Raise (OSError [Lit "cannot identify image file "; Lit path]), w)
    | None => (Raise (FileNotFoundError [Lit "No such file or directory: "; Lit path]), w)
    end.

(** [plt.subplots]: a new figure, numbered one past the largest open one.
    The figure and its axes are both named by that number. *)
Definition next_fig (figs : list nat) : nat := S (foldr Nat.max 0 figs).

Definition plt_subplots : M nat :=
  fun w =>
    let fig := next_fig (w_figs w) in
    (Ok fig, emit (EFigure fig) (set_figs (w_figs w ++ [fig]) w)).

Definition ax_imshow (ax : nat) (img : image) : M unit :=
  fun w => (Ok tt, emit (EImshow ax img) w).

Definition ax_set_title (ax : nat) (t : text) : M unit :=
  fun w => (Ok tt, emit (ETitle ax t) w).

Definition ax_axis_off (ax : nat) : M unit :=
  fun w => (Ok tt, emit (EAxisOff ax) w).

(** The click loop of matplotlib's [ginput(n, timeout=0)], which the scripts
    call and do not define.  A click is appended and ends the session when
    [n > 0] clicks are there; a right click drops the last click, if any;
    Enter ends the session whatever [n] is, so that fewer than [n] points can
    come back.  A script that runs out is an operator who ends the session
    there.  Ctrl-C during the wait ends it with no points at all: [None]. *)
Fixpoint ginput_loop (n : Z) (clicks : list point) (gs : list gesture)
    : option (list point) :=
  match gs with
  | [] => Some clicks
  | Click p :: gs' =>
      let clicks' := clicks ++ [p] in
      if (Z.of_nat (length clicks') =? n)%Z && (0 <? n)%Z then Some clicks'
      else ginput_loop n clicks' gs'
  | Undo :: gs' => ginput_loop n (removelast clicks) gs'
  | Enter :: _ => Some clicks
  | Interrupt :: _ => None
  end.

(** Whether Ctrl-C reaches the click loop before the session ends. *)
Definition interrupted (n : Z) (gs : list gesture) : bool :=
  match ginput_loop n [] gs with
  | Some _ => false
  | None => true
  end.

(** The points a session hands back (none when it is interrupted). *)
Definition ginput (n : Z) (gs : list gesture) : list point :=
  default [] (ginput_loop n [] gs).

(** [plt.ginput(n=n, timeout=0, show_clicks=True)] on the current figure,
    the one opened last (the scripts never call it without one).  An
    interrupted wait raises [KeyboardInterrupt] out of the call. *)
Definition plt_ginput (n : Z) : M (list point) :=
  fun w =>
    let w1 := emit (EGinput (default 0 (last (w_figs w))) n) w in
    match w_mouse w with
    | [] => (Ok [], w1)
    | gs :: rest =>
        match ginput_loop n [] gs with
        | Some points => (Ok points, set_mouse rest w1)
        | None => (Raise KeyboardInterrupt, set_mouse rest w1)
        end
    end.

Definition plt_close (fig : nat) : M unit :=
  fun w =>
    (Ok tt, emit (EClose fig) (set_figs (filter (fun k => k ≠ fig) (w_figs w)) w)).

(** [np.savez(path, name=array, ...)]: one archive, the named arrays in the
    order given, replacing whatever [path] held. *)
Definition np_savez (path : string) (entries : list (string * ndarray)) : M unit :=
  fun w => (Ok tt, set_fs (<[path := FNpz entries]> (w_fs w)) w).

(** [if cond: raise e] *)
Definition raise_if (cond : bool) (e : exn) : M unit :=
  if cond then raise e else ret tt.

(** [seq[i]] on a list: [IndexError] out of range. *)
Definition getitem {A} (l : list A) (i : nat) : M A :=
  match l !! i with
  | Some a => ret a
  | None => raise (IndexError [Lit "index "; Int i; Lit " is out of bounds"])
  end.

(** [d[k]] on a dict: [KeyError] for a missing key. *)
Definition dict_get {A} (d : gmap nat A) (k : nat) : M A :=
  match d !! k with
  | Some a => ret a
  | None => raise (KeyError k)
  end.

(** The [if __name__ == "__main__"] block, the same in both scripts.  The
    process ends cleanly, or with the traceback of an exception that left
    the block. *)
Inductive exit := Clean | Traceback (e : exn).

Definition dunder_main (main : M unit) : world -> exit * world :=
  fun w =>
    match main w with
    | (Ok _, w') => (Clean, w')
    | (Raise KeyboardInterrupt, w') =>
        (Clean, emit (EPrint [Lit (nl +:+ nl +:+ "⚠ Interrupted by user. Exiting...")]) w')
    | (Raise e, w') =>
        if is_Exception e
        then (Traceback e, emit (EPrint (Lit (nl +:+ nl +:+ "❌ Error: ") :: exn_str e)) w')
        else (Traceback e, w')
    end.

(** ** click_painting_corners.py *)

Module Corners.

Definition paintings_wh : list (float * float) :=
  [ (121.3, 82.9); (92.1, 73.7); (233.7, 243.9);
    (390.1, 259.7); (130.2, 162.3); (200.7, 250.8) ]%float.

Definition image_files : list string :=
  [ "Christinas World — Wyeth.jpeg";
    "The Starry Night — Van Gogh.jpeg";
    "Les Demoiselles dAvignon — Picasso.jpeg";
    "Dance (I) — Matisse.jpeg";
    "Girl Before a Mirror — Picasso.jpeg";
    "The Birth of the World — Miró.jpeg" ].

Definition output_file : string := "painting_corners.npz".

Definition click_corners (image_path : string) (title : text) : M ndarray :=
  let* found := os_path_exists image_path in
  raise_if (negb found) (FileNotFoundError [Lit "Image not found: "; Lit image_path]) >>
  let* img := plt_imread image_path in
  let* fig := plt_subplots in
  ax_imshow fig img >>
  ax_set_title fig title >>
  ax_axis_off fig >>
  print [Lit (nl +:+ rule)] >>
  print title >>
  print [Lit rule] >>
  print [Lit "Click 4 corners of the painting in this order:"] >>
  print [Lit "  1. Top-left corner"] >>
  print [Lit "  2. Top-right corner"] >>
  print [Lit "  3. Bottom-right corner"] >>
  print [Lit "  4. Bottom-left corner"] >>
  print [Lit "Press ENTER when done"] >>
  print [Lit rule] >>
  let* points := plt_ginput 4 in
  plt_close fig >>
  let corners := np_array points in
  print [Lit "✓ Collected 4 corners from "; Lit image_path] >>
  ret corners.

Definition labels : list string :=
  ["Top-left"; "Top-right"; "Bottom-right"; "Bottom-left"].

(** [for j, (label, point) in enumerate(zip(labels, corners)): print(...)] *)
Fixpoint show_corners (rows : list (string * point)) : M unit :=
  match rows with
  | [] => ret tt
  | (label, p) :: rows' =>
      print [Lit "  "; Lit label; Lit ": ("; Flt 2 p.1; Lit ", "; Flt 2 p.2; Lit ")"] >>
      show_corners rows'
  end.

(** The loop [for i, img_file in enumerate(image_files)], from index [i] on. *)
Fixpoint collect (wh : list (float * float)) (i : nat) (files : list string)
    (corner_points : gmap nat ndarray) : M (gmap nat ndarray) :=
  match files with
  | [] => ret corner_points
  | img_file :: files' =>
      let* dims := getitem wh i in
      let width_cm := dims.1 in
      let height_cm := dims.2 in
      print [Lit (nl +:+ rule)] >>
      print [Lit "Image "; Int (i + 1); Lit "/6: "; Lit img_file] >>
      print [Lit "Painting dimensions: "; Flt 1 width_cm; Lit "cm × "; Flt 1 height_cm; Lit "cm"] >>
      print [Lit "Aspect ratio: "; Flt 3 (width_cm / height_cm)%float] >>
      print [Lit rule] >>
      input [Lit (nl +:+ "Press Enter to start clicking points on "); Lit img_file; Lit "..."] >>
      let title := [Lit "Image "; Int (i + 1); Lit " - "; Lit img_file;
                    Lit (nl +:+ "Click 4 corners (Top-left, Top-right, Bottom-right, Bottom-left)")] in
      let* corners := click_corners img_file title in
      let corner_points := <[i := corners]> corner_points in
      print [Lit (nl +:+ "Collected points for Image "); Int (i + 1); Lit ":"] >>
      show_corners (zip labels (np_rows corners)) >>
      collect wh (S i) files' corner_points
  end.

(** [for i in range(6): print(... image_files[i] ... len(corner_points[i]) ...)] *)
Fixpoint summary (corner_points : gmap nat ndarray) (idx : list nat) : M unit :=
  match idx with
  | [] => ret tt
  | i :: idx' =>
      let* name := getitem image_files i in
      let* a := dict_get corner_points i in
      print [Lit "  Image "; Int (i + 1); Lit " ("; Lit name; Lit "): "; Int (np_len a); Lit " points"] >>
      summary corner_points idx'
  end.

Definition greeting : M unit :=
  print [Lit (nl +:+ rule)] >>
  print [Lit "PAINTING CORNER POINT COLLECTION"] >>
  print [Lit rule] >>
  print [Lit (nl +:+ "This script will help you click 4 corner points on each of the 6 painting images.")] >>
  print [Lit (nl +:+ "For each image, click the corners in this order:")] >>
  print [Lit "  1. Top-left corner of the painting"] >>
  print [Lit "  2. Top-right corner of the painting"] >>
  print [Lit "  3. Bottom-right corner of the painting"] >>
  print [Lit "  4. Bottom-left corner of the painting"] >>
  print [Lit (nl +:+ rule)].

(** The [np.savez] call of [main]: six keyword arguments, each a lookup. *)
Definition save (corner_points : gmap nat ndarray) : M unit :=
  let* c0 := dict_get corner_points 0 in
  let* c1 := dict_get corner_points 1 in
  let* c2 := dict_get corner_points 2 in
  let* c3 := dict_get corner_points 3 in
  let* c4 := dict_get corner_points 4 in
  let* c5 := dict_get corner_points 5 in
  np_savez output_file
    [ ("corners_0", c0); ("corners_1", c1); ("corners_2", c2);
      ("corners_3", c3); ("corners_4", c4); ("corners_5", c5) ].

Definition farewell (corner_points : gmap nat ndarray) : M unit :=
  print [Lit (nl +:+ rule)] >>
  print [Lit "ALL CORNER POINTS COLLECTED SUCCESSFULLY!"] >>
  print [Lit rule] >>
  print [Lit (nl +:+ "Points saved to: "); Lit output_file] >>
  print [Lit (nl +:+ "Summary:")] >>
  summary corner_points (seq 0 6) >>
  print [Lit (nl +:+ rule)] >>
  print [Lit "To load these points in your notebook, use:"] >>
  print [Lit "  data = np.load('painting_corners.npz')"] >>
  print [Lit "  corner_points = {"] >>
  print [Lit "      0: data['corners_0'],"] >>
  print [Lit "      1: data['corners_1'],"] >>
  print [Lit "      2: data['corners_2'],"] >>
  print [Lit "      3: data['corners_3'],"] >>
  print [Lit "      4: data['corners_4'],"] >>
  print [Lit "      5: data['corners_5']"] >>
  print [Lit "  }"] >>
  print [Lit rule].

(** The overwrite question; [true] when the run is to stop there. *)
Definition declined : M bool :=
  let* prior := os_path_exists "painting_corners.npz" in
  if prior then
    let* response :=
      input [Lit (nl +:+ "⚠ 'painting_corners.npz' already exists. Overwrite? (y/n): ")] in
    if negb (String.eqb (lower response) "y")
    then print [Lit "Exiting without overwriting."] >> ret true
    else ret false
  else ret false.

(** [main], with the module's table of dimensions as an argument. *)
Definition main_with (wh : list (float * float)) : M unit :=
  greeting >>
  let* stop := declined in
  if stop then ret tt
  else
    let* corner_points := collect wh 0 image_files ∅ in
    save corner_points >>
    farewell corner_points.

Definition main : M unit := main_with paintings_wh.

Definition script : world -> exit * world := dunder_main main.

End Corners.

(** ** click_points.py *)

Module Points.

Definition output_file : string := "correspondence_points.npz".

Definition click_points_on_image (image_path : string) (title : text) (min_points : nat)
    : M (list point) :=
  let* found := os_path_exists image_path in
  raise_if (negb found) (FileNotFoundError [Lit "Image not found: "; Lit image_path]) >>
  let* img := plt_imread image_path in
  let* fig := plt_subplots in
  ax_imshow fig img >>
  ax_set_title fig title >>
  ax_axis_off fig >>
  print [Lit (nl +:+ rule)] >>
  print title >>
  print [Lit rule] >>
  print [Lit "Instructions:"] >>
  print [Lit "  - Left-click to select points (at least "; Int min_points; Lit " points)"] >>
  print [Lit "  - Points will be marked with red crosses as you click"] >>
  print [Lit "  - Press ENTER when you're done selecting points"] >>
  print [Lit "  - Right-click to remove the last point"] >>
  print [Lit rule] >>
  let* points := plt_ginput (-1) in
  raise_if (length points <? min_points)%nat
    (ValueError [Lit "Need at least "; Int min_points; Lit " points, but only got ";
                 Int (length points)]) >>
  plt_close fig >>
  print [Lit (nl +:+ "✓ Collected "); Int (length points); Lit " points from "; Lit image_path] >>
  ret points.

(** [for i, (x, y) in enumerate(points, i): print(...)] *)
Fixpoint show_points (i : nat) (rows : list point) : M unit :=
  match rows with
  | [] => ret tt
  | (x, y) :: rows' =>
      print [Lit "  Point "; Int i; Lit ": ("; Flt 2 x; Lit ", "; Flt 2 y; Lit ")"] >>
      show_points (S i) rows'
  end.

Definition greeting : M unit :=
  print [Lit (nl +:+ rule)] >>
  print [Lit "IMAGE CORRESPONDENCE POINT CLICKING"] >>
  print [Lit rule] >>
  print [Lit (nl +:+ "This script will help you select corresponding points on two images.")] >>
  print [Lit "You'll click points on Image 3 first, then corresponding points on Image 4."] >>
  print [Lit (nl +:+ "IMPORTANT:")] >>
  print [Lit "  - Click at least 4 points (more is better for accuracy)"] >>
  print [Lit "  - Click corresponding points in the SAME ORDER on both images"] >>
  print [Lit "  - Example: if you click the top-left corner first on Image 3,"] >>
  print [Lit "    click the top-left corner first on Image 4 too"] >>
  print [Lit rule].

(** The block under [# Ensure same number of points]. *)
Definition reconcile (points_img1 points_img2 : list point) : M (list point * list point) :=
  if negb (length points_img2 =? length points_img1)%nat then
    print [Lit (nl +:+ "⚠ Warning: Number of points don't match!")] >>
    print [Lit "  Image 3: "; Int (length points_img1); Lit " points"] >>
    print [Lit "  Image 4: "; Int (length points_img2); Lit " points"] >>
    print [Lit (nl +:+ "Using first "); Int (Nat.min (length points_img1) (length points_img2));
           Lit " points from each image."] >>
    let n_points := Nat.min (length points_img1) (length points_img2) in
    ret (slice_to n_points points_img1, slice_to n_points points_img2)
  else ret (points_img1, points_img2).

Definition report (image1points image2points : ndarray) : M unit :=
  print [Lit (nl +:+ rule)] >>
  print [Lit "POINTS COLLECTED SUCCESSFULLY!"] >>
  print [Lit rule] >>
  print [Lit (nl +:+ "Total correspondences: "); Int (np_len image1points)] >>
  print [Lit (nl +:+ "Points saved to: "); Lit output_file] >>
  print [Lit (nl +:+ "Image 3 points:")] >>
  show_points 1 (np_rows image1points) >>
  print [Lit (nl +:+ "Image 4 points:")] >>
  show_points 1 (np_rows image2points) >>
  print [Lit (nl +:+ rule)] >>
  print [Lit "To use these points in your notebook, run:"] >>
  print [Lit "  data = np.load('correspondence_points.npz')"] >>
  print [Lit "  image1points = data['image1points']"] >>
  print [Lit "  image2points = data['image2points']"] >>
  print [Lit rule].

(** The lines under [# Also print as arrays for easy copying]. *)
Definition echo (image1points image2points : ndarray) : M unit :=
  print [Lit (nl +:+ "As numpy arrays (for copying into notebook):")] >>
  print [Lit (nl +:+ "image1points = np.array(")] >>
  print [Repr image1points] >>
  print [Lit ")"] >>
  print [Lit (nl +:+ "image2points = np.array(")] >>
  print [Repr image2points] >>
  print [Lit ")"].

Definition main : M unit :=
  let img1_path := "image_3.png" in
  let img2_path := "image_4.png" in
  greeting >>
  input [Lit (nl +:+ "Press Enter to start clicking points on Image 3...")] >>
  let* points_img1 :=
    click_points_on_image img1_path
      [Lit "Image 3 - Click points (Press Enter when done)"] 4 in
  print [Lit (nl +:+ "You clicked "); Int (length points_img1); Lit " points on Image 3."] >>
  print [Lit (nl +:+ "Now you'll click the corresponding points on Image 4.")] >>
  print [Lit "Make sure to click them in the SAME ORDER!"] >>
  input [Lit (nl +:+ "Press Enter to start clicking "); Int (length points_img1);
         Lit " points on Image 4..."] >>
  let* points_img2 :=
    click_points_on_image img2_path
      [Lit "Image 4 - Click "; Int (length points_img1);
       Lit " corresponding points in same order (Press Enter when done)"]
      (length points_img1) in
  let* both := reconcile points_img1 points_img2 in
  let image1points := np_array both.1 in
  let image2points := np_array both.2 in
  np_savez output_file [("image1points", image1points); ("image2points", image2points)] >>
  report image1points image2points >>
  echo image1points image2points.

Definition script : world -> exit * world := dunder_main main.

End Points.

(** ** Vocabulary for the statements *)

(** The script of the next click session; none left is an empty one. *)
Definition session (w : world) : list gesture := hd [] (w_mouse w).

(** What [click_corners] puts on screen and console up to the click session. *)
Definition corners_shown (fig : nat) (img : image) (title : text) : list event :=
  [ EFigure fig; EImshow fig img; ETitle fig title; EAxisOff fig;
    EPrint [Lit (nl +:+ rule)]; EPrint title; EPrint [Lit rule];
    EPrint [Lit "Click 4 corners of the painting in this order:"];
    EPrint [Lit "  1. Top-left corner"];
    EPrint [Lit "  2. Top-right corner"];
    EPrint [Lit "  3. Bottom-right corner"];
    EPrint [Lit "  4. Bottom-left corner"];
    EPrint [Lit "Press ENTER when done"];
    EPrint [Lit rule];
    EGinput fig 4 ].

(** The same for [click_points_on_image]. *)
Definition points_shown (fig : nat) (img : image) (title : text) (min_points : nat)
    : list event :=
  [ EFigure fig; EImshow fig img; ETitle fig title; EAxisOff fig;
    EPrint [Lit (nl +:+ rule)]; EPrint title; EPrint [Lit rule];
    EPrint [Lit "Instructions:"];
    EPrint [Lit "  - Left-click to select points (at least "; Int min_points; Lit " points)"];
    EPrint [Lit "  - Points will be marked with red crosses as you click"];
    EPrint [Lit "  - Press ENTER when you're done selecting points"];
    EPrint [Lit "  - Right-click to remove the last point"];
    EPrint [Lit rule];
    EGinput fig (-1) ].

(** The two exceptions of a capture. *)
Definition image_not_found (image_path : string) : exn :=
  FileNotFoundError [Lit "Image not found: "; Lit image_path].

Definition too_few_points (min_points got : nat) : exn :=
  ValueError [Lit "Need at least "; Int min_points; Lit " points, but only got "; Int got].

(** The world with more output. *)
Definition emits (es : list event) (w : world) : world :=
  World (w_fs w) (w_figs w) (w_stdin w) (w_mouse w) (w_out w ++ es).

(** The lines [show_points] prints. *)
Fixpoint point_lines (i : nat) (rows : list point) : list event :=
  match rows with
  | [] => []
  | (x, y) :: rows' =>
      EPrint [Lit "  Point "; Int i; Lit ": ("; Flt 2 x; Lit ", "; Flt 2 y; Lit ")"]
      :: point_lines (S i) rows'
  end.

(** The lines [show_corners] prints. *)
Fixpoint corner_lines (rows : list (string * point)) : list event :=
  match rows with
  | [] => []
  | (label, p) :: rows' =>
      EPrint [Lit "  "; Lit label; Lit ": ("; Flt 2 p.1; Lit ", "; Flt 2 p.2; Lit ")"]
      :: corner_lines rows'
  end.

(** The points of the click session number [i] of a corner run. *)
Definition corners_clicked (w : world) (i : nat) : list point :=
  ginput 4 (nth i (w_mouse w) []).

(** The first line of the count-mismatch warning. *)
Definition mismatch_warning : event :=
  EPrint [Lit (nl +:+ "⚠ Warning: Number of points don't match!")].

(** Recognising the warning among the events. *)
Definition is_mismatch_warning (e : event) : bool :=
  match e with
  | EPrint [Lit s] => String.eqb s (nl +:+ "⚠ Warning: Number of points don't match!")
  | _ => false
  end.

(** The console lines that end a correspondence run. *)
Definition echo_lines (image1points image2points : ndarray) : list event :=
  [ EPrint [Lit (nl +:+ "As numpy arrays (for copying into notebook):")];
    EPrint [Lit (nl +:+ "image1points = np.array(")];
    EPrint [Repr image1points];
    EPrint [Lit ")"];
    EPrint [Lit (nl +:+ "image2points = np.array(")];
    EPrint [Repr image2points];
    EPrint [Lit ")"] ].

(** The two lines the [__main__] block can print. *)
Definition interrupted_notice : event :=
  EPrint [Lit (nl +:+ nl +:+ "⚠ Interrupted by user. Exiting...")].

(** The line the block prints for an error whose [str] is [msg]. *)
Definition error_line (msg : text) : event :=
  EPrint (Lit (nl +:+ nl +:+ "❌ Error: ") :: msg).

(** [e] is an exception other than the interrupt, raised with the message
    [msg]; a [KeyError] shows its key. *)
Definition raised_with (e : exn) (msg : text) : Prop :=
  e = FileNotFoundError msg \/ e = ValueError msg \/ e = OSError msg \/
  e = IndexError msg \/ e = EOFError msg \/ exists k, e = KeyError k /\ msg = [Int k].

(** What the corner script prints first, and the question it may ask next. *)
Definition corners_greeting : list event :=
  [ EPrint [Lit (nl +:+ rule)];
    EPrint [Lit "PAINTING CORNER POINT COLLECTION"];
    EPrint [Lit rule];
    EPrint [Lit (nl +:+ "This script will help you click 4 corner points on each of the 6 painting images.")];
    EPrint [Lit (nl +:+ "For each image, click the corners in this order:")];
    EPrint [Lit "  1. Top-left corner of the painting"];
    EPrint [Lit "  2. Top-right corner of the painting"];
    EPrint [Lit "  3. Bottom-right corner of the painting"];
    EPrint [Lit "  4. Bottom-left corner of the painting"];
    EPrint [Lit (nl +:+ rule)] ].

Definition overwrite_question : event :=
  EPrompt [Lit (nl +:+ "⚠ 'painting_corners.npz' already exists. Overwrite? (y/n): ")].

(** ** Frames *)

(** A relation between the world before and the world after that every step
    other than a write to the file system respects. *)
Class Stable (R : world -> world -> Prop) : Prop := {
  stable_refl : forall w, R w w;
  stable_trans : forall w1 w2 w3, R w1 w2 -> R w2 w3 -> R w1 w3;
  stable_emit : forall e w, R w (emit e w);
  stable_figs : forall figs w, R w (set_figs figs w);
  stable_stdin : forall k w, R w (set_stdin k w);
  stable_mouse : forall m w, R w (set_mouse m w)
}.

(** [m] relates the world it starts in to the one it ends in, however it ends. *)
Definition keeps (R : world -> world -> Prop) {A} (m : M A) : Prop :=
  forall w, R w (m w).2.

(** The same when only the runs that raise are looked at. *)
Definition on_raise (R : world -> world -> Prop) {A} (m : M A) : Prop :=
  forall w e w', m w = (Raise e, w') -> R w w'.

(** No file was written. *)
Definition same_fs (w w' : world) : Prop := w_fs w' = w_fs w.

(** The console and display log only grew. *)
Definition appends (w w' : world) : Prop := exists t, w_out w' = w_out w ++ t.

(** A line on the console, as opposed to a prompt or anything on a figure. *)
Definition is_print (e : event) : bool :=
  match e with
  | EPrint _ => true
  | _ => false
  end.

(** ** Runs that differ on the console only *)

(** The log without the printed lines: prompts and what happened on figures. *)
Fixpoint silent (out : list event) : list event :=
  match out with
  | [] => []
  | e :: out' => if is_print e then silent out' else e :: silent out'
  end.

(** Two worlds with the same files, figures and operator, and the same log
    once the printed lines are left out. *)
Definition alike (w1 w2 : world) : Prop :=
  w_fs w1 = w_fs w2 /\ w_figs w1 = w_figs w2 /\ w_stdin w1 = w_stdin w2 /\
  w_mouse w1 = w_mouse w2 /\ silent (w_out w1) = silent (w_out w2).

(** Two results of the same kind: the same exception, or values related by [Q]. *)
Definition agree {A} (Q : A -> A -> Prop) (r1 r2 : result A) : Prop :=
  match r1, r2 with
  | Ok a1, Ok a2 => Q a1 a2
  | Raise e1, Raise e2 => e1 = e2
  | _, _ => False
  end.

(** From alike worlds the two programs end alike. *)
Definition sim {A} (Q : A -> A -> Prop) (m1 m2 : M A) : Prop :=
  forall w1 w2, alike w1 w2 -> agree Q (m1 w1).1 (m2 w2).1 /\ alike (m1 w1).2 (m2 w2).2.

(** Another table of dimensions, of the same shape. *)
Definition square_frames : list (float * float) := replicate 6 (100, 100)%float.

(** ** Sample operators *)

Definition six_points : list point :=
  [ (10.5, 20.25); (110, 20); (110, 90.75); (10, 90); (60, 55.5); (70, 70) ]%float.

(** Clicking the given points, then Enter. *)
Definition clicking (ps : list point) : list gesture := map Click ps ++ [Enter].

Definition two_images : gmap string file :=
  <["image_3.png" := FImage [3%Z]]> (<["image_4.png" := FImage [4%Z]]> ∅).

(** Four points on the first image, six on the second. *)
Definition more_on_second : world :=
  World two_images [] [Line ""; Line ""]
        [clicking (take 4 six_points); clicking six_points] [].

(** Five points on the first image, four on the second. *)
Definition fewer_on_second : world :=
  World two_images [] [Line ""; Line ""]
        [clicking (take 5 six_points); clicking (take 4 six_points)] [].

(** One image, and an operator who clicks three points and presses Enter. *)
Definition three_clicks : world :=
  World (<["painting.jpeg" := FImage [7%Z]]> ∅) [] [] [clicking (take 3 six_points)] [].

(** An empty directory, and an operator who interrupts at the first prompt. *)
Definition interrupting : world := World ∅ [] [CtrlC] [] [].

(** An empty directory and a closed standard input. *)
Definition closed_input : world := World ∅ [] [] [] [].

(** Both images, and an operator who presses Ctrl-C after one click on the
    first. *)
Definition interrupted_click : world :=
  World two_images [] [Line ""; Line ""] [[Click (10.5, 20.25)%float; Interrupt]] [].

(** An empty directory, and an operator who presses Enter at the first prompt. *)
Definition no_images : world := World ∅ [] [Line ""] [] [].

(** Six images, an operator who presses Enter at every prompt, clicks three
    corners and Enter on the first painting and four corners on the others. *)
Definition gallery : gmap string file :=
  foldr (fun name fs => <[name := FImage [0%Z]]> fs) ∅ Corners.image_files.

Definition hasty : world :=
  World gallery [] (replicate 6 (Line ""))
        (clicking (take 3 six_points) :: replicate 5 (clicking (take 4 six_points))) [].

(** An earlier archive in the directory, and an operator who answers no. *)
Definition earlier_archive : file := FNpz [("corners_0", np_array (take 4 six_points))].

Definition cautious : world :=
  World (<[Corners.output_file := earlier_archive]> gallery) [] [Line "n"]
        [clicking (take 4 six_points)] [].

(** An earlier archive, and an operator who answers yes, presses Enter at the
    six prompts and clicks four corners on every painting. *)
Definition overwriting : world :=
  World (<[Corners.output_file := earlier_archive]> gallery) []
        (Line "Y" :: replicate 6 (Line ""))
        (replicate 6 (clicking (take 4 six_points))) [].

(** The third painting is not in the directory. *)
Definition third_missing : world :=
  World (delete "Les Demoiselles dAvignon — Picasso.jpeg" gallery) []
        (replicate 6 (Line ""))
        (replicate 6 (clicking (take 4 six_points))) [].

(** Two points only on the first image of a correspondence run. *)
Definition two_on_first : world :=
  World two_images [] [Line ""; Line ""]
        [clicking (take 2 six_points); clicking six_points] [].

(** No click wait still to come in corner mode is interrupted. *)
Definition calm (w : world) : Prop :=
  Forall (fun gs => interrupted 4 gs = false) (w_mouse w).

(** From a calm world, [m] ends in a calm world with the figures open that
    were open when it started, however it ends. *)
Definition figs_kept {A} (m : M A) : Prop :=
  forall w, calm w -> calm (m w).2 /\ w_figs (m w).2 = w_figs w.

(** One painting, and an operator who presses Ctrl-C after two clicks. *)
Definition interrupted_corner : world :=
  World (<["painting.jpeg" := FImage [7%Z]]> ∅) [] []
        [[Click (10.5, 20.25)%float; Click (110, 20)%float; Interrupt]] [].

(** * Properties *)

(** ** Arrays *)

Lemma pairs_of_flat (points : list point) :
  pairs_of (flat_map (fun p => [p.1; p.2]) points) = points.
Proof.
  induction points as [|[x y] points IH]; [done|].
  cbn. by rewrite IH.
Qed.

Lemma np_rows_array (points : list point) : np_rows (np_array points) = points.
Proof.
  destruct points as [|p points]; [done|].
  unfold np_rows, np_array, nd_data. apply pairs_of_flat.
Qed.

Lemma np_len_array (points : list point) : np_len (np_array points) = length points.
Proof. by destruct points. Qed.

Lemma np_shape_array (points : list point) :
  points ≠ [] -> nd_shape (np_array points) = [length points; 2].
Proof. by destruct points. Qed.

(** ** Figure numbers *)

Lemma filter_below (n : nat) (l : list nat) :
  Forall (fun k => k < n) l -> filter (fun k => k ≠ n) l = l.
Proof.
  induction 1 as [|k l Hk _ IH]; [done|].
  rewrite filter_cons_True by lia. by rewrite IH.
Qed.

Lemma below_next_fig (figs : list nat) : Forall (fun k => k < next_fig figs) figs.
Proof.
  unfold next_fig. induction figs as [|a l IH]; constructor; cbn; [lia|].
  eapply Forall_impl; [exact IH|]. cbn. intros; lia.
Qed.

(** Closing the figure just opened gives back the figures there were. *)
Lemma close_next_fig (figs : list nat) :
  filter (fun k => k ≠ next_fig figs) (figs ++ [next_fig figs]) = figs.
Proof.
  rewrite filter_app, filter_cons_False, filter_nil, app_nil_r by (intros H; by apply H).
  apply filter_below, below_next_fig.
Qed.

(** ** Running a program step by step *)

Section Steps.
Context {A B : Type}.
Implicit Types (k : A -> M B) (w : world).

Lemma bind_ok (m : M A) k w a w' : m w = (Ok a, w') -> bind m k w = k a w'.
Proof. unfold bind. by intros ->. Qed.

Lemma bind_raise (m : M A) k w e w' : m w = (Raise e, w') -> bind m k w = (Raise e, w').
Proof. unfold bind. by intros ->. Qed.

(** A run of [bind m k] that ends well went through [m] and then [k]. *)
Lemma bind_ok_inv (m : M A) k w b w'' :
  bind m k w = (Ok b, w'') -> exists a w', m w = (Ok a, w') /\ k a w' = (Ok b, w'').
Proof.
  unfold bind. destruct (m w) as [[a|e] w']; [eauto|discriminate].
Qed.

(** A run of [bind m k] that raises does so in [m], or in [k] after [m]. *)
Lemma bind_raise_inv (m : M A) k w e w'' :
  bind m k w = (Raise e, w'') ->
  m w = (Raise e, w'') \/ exists a w', m w = (Ok a, w') /\ k a w' = (Raise e, w'').
Proof.
  unfold bind. destruct (m w) as [[a|e'] w']; [eauto|]. intros [= -> ->]. by left.
Qed.

Lemma run_ret (a : A) k w : bind (ret a) k w = k a w.
Proof. reflexivity. Qed.

Lemma run_raise (e : exn) k w : bind (raise e) k w = (Raise e, w).
Proof. reflexivity. Qed.

Lemma run_assoc {C} (m : M C) (h : C -> M A) k w :
  bind (bind m h) k w = bind m (fun c => bind (h c) k) w.
Proof. unfold bind. by destruct (m w) as [[c|e] w']. Qed.
End Steps.

Section UnitSteps.
Context {B : Type}.
Implicit Types (k : unit -> M B) (w : world).

Lemma run_print t k w : bind (print t) k w = k tt (emit (EPrint t) w).
Proof. reflexivity. Qed.

Lemma run_imshow ax img k w : bind (ax_imshow ax img) k w = k tt (emit (EImshow ax img) w).
Proof. reflexivity. Qed.

Lemma run_set_title ax t k w : bind (ax_set_title ax t) k w = k tt (emit (ETitle ax t) w).
Proof. reflexivity. Qed.

Lemma run_axis_off ax k w : bind (ax_axis_off ax) k w = k tt (emit (EAxisOff ax) w).
Proof. reflexivity. Qed.

Lemma run_close fig k w :
  bind (plt_close fig) k w
  = k tt (emit (EClose fig) (set_figs (filter (fun j => j ≠ fig) (w_figs w)) w)).
Proof. reflexivity. Qed.

Lemma run_savez path entries k w :
  bind (np_savez path entries) k w = k tt (set_fs (<[path := FNpz entries]> (w_fs w)) w).
Proof. reflexivity. Qed.

Lemma run_raise_if_false e k w : bind (raise_if false e) k w = k tt w.
Proof. reflexivity. Qed.

Lemma run_raise_if_true e k w : bind (raise_if true e) k w = (Raise e, w).
Proof. reflexivity. Qed.
End UnitSteps.

Lemma run_exists {B} path (k : bool -> M B) w :
  bind (os_path_exists path) k w = k (bool_decide (is_Some (w_fs w !! path))) w.
Proof. reflexivity. Qed.

Lemma run_subplots {B} (k : nat -> M B) w :
  bind plt_subplots k w
  = k (next_fig (w_figs w))
      (emit (EFigure (next_fig (w_figs w))) (set_figs (w_figs w ++ [next_fig (w_figs w)]) w)).
Proof. reflexivity. Qed.

Lemma run_imread {B} path img (k : image -> M B) w :
  w_fs w !! path = Some (FImage img) -> bind (plt_imread path) k w = k img w.
Proof. intros H. unfold bind, plt_imread. by rewrite H. Qed.

Lemma ginput_calm (n : Z) (gs : list gesture) :
  interrupted n gs = false -> ginput_loop n [] gs = Some (ginput n gs).
Proof. unfold interrupted, ginput. by destruct (ginput_loop n [] gs). Qed.

Lemma run_ginput {B} n (k : list point -> M B) w :
  interrupted n (session w) = false ->
  bind (plt_ginput n) k w
  = k (ginput n (session w))
      (set_mouse (tail (w_mouse w)) (emit (EGinput (default 0 (last (w_figs w))) n) w)).
Proof.
  intros Hcalm. unfold bind, plt_ginput, session in *.
  destruct w as [fs figs stdin [|gs rest] out]; [reflexivity|]. cbn in *.
  by rewrite (ginput_calm _ _ Hcalm).
Qed.

Lemma run_ginput_interrupted {B} n (k : list point -> M B) w :
  interrupted n (session w) = true ->
  bind (plt_ginput n) k w
  = (Raise KeyboardInterrupt,
     set_mouse (tail (w_mouse w)) (emit (EGinput (default 0 (last (w_figs w))) n) w)).
Proof.
  intros Hint. unfold bind, plt_ginput, session, interrupted in *.
  destruct w as [fs figs stdin [|gs rest] out]; [discriminate|]. cbn in *.
  by destruct (ginput_loop n [] gs).
Qed.

Lemma run_input {B} prompt s rest (k : string -> M B) w :
  w_stdin w = Line s :: rest ->
  bind (input prompt) k w = k s (set_stdin rest (emit (EPrompt prompt) w)).
Proof. intros H. unfold bind, input. by rewrite H. Qed.

Lemma run_input_ctrl_c {B} prompt rest (k : string -> M B) w :
  w_stdin w = CtrlC :: rest ->
  bind (input prompt) k w
  = (Raise KeyboardInterrupt, set_stdin rest (emit (EPrompt prompt) w)).
Proof. intros H. unfold bind, input. by rewrite H. Qed.

Lemma run_input_eof {B} prompt (k : string -> M B) w :
  w_stdin w = [] ->
  bind (input prompt) k w
  = (Raise (EOFError [Lit "EOF when reading a line"]), emit (EPrompt prompt) w).
Proof. intros H. unfold bind, input. by rewrite H. Qed.

(** The steps that need no side condition. *)
Ltac steps :=
  repeat first
    [ rewrite run_assoc | rewrite run_print | rewrite run_ret | rewrite run_raise | rewrite run_exists
    | rewrite run_subplots | rewrite run_imshow | rewrite run_set_title
    | rewrite run_axis_off | rewrite run_close
    | rewrite run_savez | rewrite run_raise_if_false | rewrite run_raise_if_true ].

Tactic Notation "steps" "in" hyp(H) :=
  repeat first
    [ rewrite run_assoc in H | rewrite run_print in H | rewrite run_ret in H
    | rewrite run_raise in H | rewrite run_exists in H
    | rewrite run_subplots in H | rewrite run_imshow in H | rewrite run_set_title in H
    | rewrite run_axis_off in H | rewrite run_close in H
    | rewrite run_savez in H | rewrite run_raise_if_false in H
    | rewrite run_raise_if_true in H ].

(** What a step leaves of each component of the world. *)
Ltac fields :=
  unfold session in *;
  cbn [w_fs w_figs w_stdin w_mouse w_out emit emits set_fs set_figs set_stdin set_mouse
       fst snd] in *.

Lemma world_eq (w : world) fs figs stdin mouse out :
  w_fs w = fs -> w_figs w = figs -> w_stdin w = stdin -> w_mouse w = mouse -> w_out w = out ->
  w = World fs figs stdin mouse out.
Proof. destruct w; cbn; by intros -> -> -> -> ->. Qed.

Lemma last_snoc_fig (figs : list nat) (fig : nat) : default 0 (last (figs ++ [fig])) = fig.
Proof. by rewrite last_snoc. Qed.

(** Bringing an output built event by event to the form [out ++ events]. *)
Ltac flatten_out := rewrite <- ?app_assoc; cbn [app]; try reflexivity.

(** ** One capture in correspondence mode *)

Section PointsCapture.
Variables (image_path : string) (title : text) (min_points : nat) (w : world).

Let fig := next_fig (w_figs w).
Let points := ginput (-1) (session w).

Lemma click_points_missing :
  w_fs w !! image_path = None ->
  Points.click_points_on_image image_path title min_points w
  = (Raise (image_not_found image_path), w).
Proof.
  intros H. unfold Points.click_points_on_image. steps. rewrite H.
  rewrite bool_decide_eq_false_2 by (by intros [? ?]). reflexivity.
Qed.

Lemma click_points_unreadable (f : file) :
  w_fs w !! image_path = Some f -> (forall img, f ≠ FImage img) ->
  Points.click_points_on_image image_path title min_points w
  = (Raise (OSError [Lit "cannot identify image file "; Lit image_path]), w).
Proof.
  intros H Hf. unfold Points.click_points_on_image. steps.
  rewrite bool_decide_eq_true_2 by eauto. cbn [negb]. steps.
  unfold bind at 1, plt_imread. rewrite H.
  destruct f; [by edestruct Hf|done..].
Qed.

Lemma click_points_interrupted (img : image) :
  w_fs w !! image_path = Some (FImage img) ->
  interrupted (-1) (session w) = true ->
  Points.click_points_on_image image_path title min_points w
  = (Raise KeyboardInterrupt,
     World (w_fs w) (w_figs w ++ [fig]) (w_stdin w) (tail (w_mouse w))
           (w_out w ++ points_shown fig img title min_points)).
Proof.
  intros H Hint. unfold Points.click_points_on_image. steps.
  rewrite bool_decide_eq_true_2 by eauto. cbn [negb]. steps.
  rewrite (run_imread _ img) by done. steps.
  rewrite run_ginput_interrupted by (fields; done). f_equal. fields.
  rewrite last_snoc_fig.
  apply world_eq; fields; try done. fold fig. unfold points_shown. flatten_out.
Qed.

Lemma click_points_few (img : image) :
  w_fs w !! image_path = Some (FImage img) ->
  interrupted (-1) (session w) = false ->
  length points < min_points ->
  Points.click_points_on_image image_path title min_points w
  = (Raise (too_few_points min_points (length points)),
     World (w_fs w) (w_figs w ++ [fig]) (w_stdin w) (tail (w_mouse w))
           (w_out w ++ points_shown fig img title min_points)).
Proof.
  intros H Hcalm Hlt. unfold Points.click_points_on_image. steps.
  rewrite bool_decide_eq_true_2 by eauto. cbn [negb]. steps.
  rewrite (run_imread _ img) by done. steps.
  rewrite run_ginput by (fields; done). steps. subst points. fields.
  apply Nat.ltb_lt in Hlt. rewrite Hlt.
  steps. f_equal. rewrite last_snoc_fig.
  apply world_eq; fields; try done. fold fig. unfold points_shown. flatten_out.
Qed.

Lemma click_points_enough (img : image) :
  w_fs w !! image_path = Some (FImage img) ->
  interrupted (-1) (session w) = false ->
  min_points <= length points ->
  Points.click_points_on_image image_path title min_points w
  = (Ok points,
     World (w_fs w) (w_figs w) (w_stdin w) (tail (w_mouse w))
           (w_out w ++ points_shown fig img title min_points
              ++ [ EClose fig;
                   EPrint [Lit (nl +:+ "✓ Collected "); Int (length points);
                           Lit " points from "; Lit image_path] ])).
Proof.
  intros H Hcalm Hle. unfold Points.click_points_on_image. steps.
  rewrite bool_decide_eq_true_2 by eauto. cbn [negb]. steps.
  rewrite (run_imread _ img) by done. steps.
  rewrite run_ginput by (fields; done). steps. subst points. fields.
  apply Nat.ltb_ge in Hle. rewrite Hle.
  steps. unfold ret. f_equal. rewrite last_snoc_fig.
  apply world_eq; fields; try done.
  - apply close_next_fig.
  - fold fig. unfold points_shown. flatten_out.
Qed.

(** A capture that returns has read an image and seen enough points. *)
Lemma click_points_ok_inv (pts : list point) (w' : world) :
  Points.click_points_on_image image_path title min_points w = (Ok pts, w') ->
  exists img,
    w_fs w !! image_path = Some (FImage img) /\
    pts = points /\ min_points <= length points /\
    w' = World (w_fs w) (w_figs w) (w_stdin w) (tail (w_mouse w))
           (w_out w ++ points_shown fig img title min_points
              ++ [ EClose fig;
                   EPrint [Lit (nl +:+ "✓ Collected "); Int (length points);
                           Lit " points from "; Lit image_path] ]).
Proof.
  intros Hrun. destruct (w_fs w !! image_path) as [f|] eqn:Hf.
  - destruct f as [img| |].
    + destruct (interrupted (-1) (session w)) eqn:Hint.
      { rewrite (click_points_interrupted img) in Hrun by done. discriminate. }
      destruct (Nat.lt_ge_cases (length points) min_points) as [Hlt|Hle].
      * rewrite (click_points_few img) in Hrun by done. discriminate.
      * rewrite (click_points_enough img) in Hrun by done.
        injection Hrun as <- <-. eauto.
    + rewrite (click_points_unreadable (FNpz entries)) in Hrun by done. discriminate.
    + rewrite (click_points_unreadable (FRaw bytes)) in Hrun by done. discriminate.
  - rewrite click_points_missing in Hrun by done. discriminate.
Qed.

(** A capture that returns was not interrupted in its click wait. *)
Lemma click_points_ok_calm (pts : list point) (w' : world) :
  Points.click_points_on_image image_path title min_points w = (Ok pts, w') ->
  interrupted (-1) (session w) = false.
Proof.
  intros Hrun. destruct (interrupted (-1) (session w)) eqn:Hint; [|done].
  destruct (w_fs w !! image_path) as [f|] eqn:Hf.
  - destruct f as [img| |].
    + rewrite (click_points_interrupted img) in Hrun by done. discriminate.
    + rewrite (click_points_unreadable (FNpz entries)) in Hrun by done. discriminate.
    + rewrite (click_points_unreadable (FRaw bytes)) in Hrun by done. discriminate.
  - rewrite click_points_missing in Hrun by done. discriminate.
Qed.
End PointsCapture.

(** ** One capture in corner mode *)

Section CornersCapture.
Variables (image_path : string) (title : text) (w : world).

Let fig := next_fig (w_figs w).
Let points := ginput 4 (session w).

Lemma click_corners_missing :
  w_fs w !! image_path = None ->
  Corners.click_corners image_path title w = (Raise (image_not_found image_path), w).
Proof.
  intros H. unfold Corners.click_corners. steps. rewrite H.
  rewrite bool_decide_eq_false_2 by (by intros [? ?]). reflexivity.
Qed.

Lemma click_corners_unreadable (f : file) :
  w_fs w !! image_path = Some f -> (forall img, f ≠ FImage img) ->
  Corners.click_corners image_path title w
  = (Raise (OSError [Lit "cannot identify image file "; Lit image_path]), w).
Proof.
  intros H Hf. unfold Corners.click_corners. steps.
  rewrite bool_decide_eq_true_2 by eauto. cbn [negb]. steps.
  unfold bind at 1, plt_imread. rewrite H.
  destruct f; [by edestruct Hf|done..].
Qed.

(** With the image there, the capture returns whatever the session gave:
    the number of points is not looked at. *)
Lemma click_corners_interrupted (img : image) :
  w_fs w !! image_path = Some (FImage img) ->
  interrupted 4 (session w) = true ->
  Corners.click_corners image_path title w
  = (Raise KeyboardInterrupt,
     World (w_fs w) (w_figs w ++ [fig]) (w_stdin w) (tail (w_mouse w))
           (w_out w ++ corners_shown fig img title)).
Proof.
  intros H Hint. unfold Corners.click_corners. steps.
  rewrite bool_decide_eq_true_2 by eauto. cbn [negb]. steps.
  rewrite (run_imread _ img) by done. steps.
  rewrite run_ginput_interrupted by (fields; done). f_equal. fields.
  rewrite last_snoc_fig.
  apply world_eq; fields; try done. fold fig. unfold corners_shown. flatten_out.
Qed.

Lemma click_corners_shown (img : image) :
  w_fs w !! image_path = Some (FImage img) ->
  interrupted 4 (session w) = false ->
  Corners.click_corners image_path title w
  = (Ok (np_array points),
     World (w_fs w) (w_figs w) (w_stdin w) (tail (w_mouse w))
           (w_out w ++ corners_shown fig img title
              ++ [ EClose fig;
                   EPrint [Lit "✓ Collected 4 corners from "; Lit image_path] ])).
Proof.
  intros H Hcalm. unfold Corners.click_corners. steps.
  rewrite bool_decide_eq_true_2 by eauto. cbn [negb]. steps.
  rewrite (run_imread _ img) by done. steps.
  rewrite run_ginput by (fields; done). steps. subst points. fields.
  unfold ret. f_equal. rewrite last_snoc_fig.
  apply world_eq; fields; try done.
  - apply close_next_fig.
  - fold fig. unfold corners_shown. flatten_out.
Qed.

Lemma click_corners_ok_inv (corners : ndarray) (w' : world) :
  Corners.click_corners image_path title w = (Ok corners, w') ->
  exists img,
    w_fs w !! image_path = Some (FImage img) /\
    corners = np_array points /\
    w' = World (w_fs w) (w_figs w) (w_stdin w) (tail (w_mouse w))
           (w_out w ++ corners_shown fig img title
              ++ [ EClose fig;
                   EPrint [Lit "✓ Collected 4 corners from "; Lit image_path] ]).
Proof.
  intros Hrun. destruct (w_fs w !! image_path) as [f|] eqn:Hf.
  - destruct f as [img| |].
    + destruct (interrupted 4 (session w)) eqn:Hint.
      { rewrite (click_corners_interrupted img) in Hrun by done. discriminate. }
      rewrite (click_corners_shown img) in Hrun by done.
      injection Hrun as <- <-. eauto.
    + rewrite (click_corners_unreadable (FNpz entries)) in Hrun by done. discriminate.
    + rewrite (click_corners_unreadable (FRaw bytes)) in Hrun by done. discriminate.
  - rewrite click_corners_missing in Hrun by done. discriminate.
Qed.

(** A corner capture that returns was not interrupted in its click wait. *)
Lemma click_corners_ok_calm (corners : ndarray) (w' : world) :
  Corners.click_corners image_path title w = (Ok corners, w') ->
  interrupted 4 (session w) = false.
Proof.
  intros Hrun. destruct (interrupted 4 (session w)) eqn:Hint; [|done].
  destruct (w_fs w !! image_path) as [f|] eqn:Hf.
  - destruct f as [img| |].
    + rewrite (click_corners_interrupted img) in Hrun by done. discriminate.
    + rewrite (click_corners_unreadable (FNpz entries)) in Hrun by done. discriminate.
    + rewrite (click_corners_unreadable (FRaw bytes)) in Hrun by done. discriminate.
  - rewrite click_corners_missing in Hrun by done. discriminate.
Qed.

(** Unless its click wait is interrupted, whichever way the corner capture
    ends, the open figures are those there were before. *)
Lemma click_corners_figs :
  interrupted 4 (session w) = false ->
  w_figs (Corners.click_corners image_path title w).2 = w_figs w.
Proof.
  intros Hcalm. destruct (w_fs w !! image_path) as [f|] eqn:Hf.
  - destruct f as [img| |].
    + by rewrite (click_corners_shown img).
    + by rewrite (click_corners_unreadable (FNpz entries)).
    + by rewrite (click_corners_unreadable (FRaw bytes)).
  - by rewrite click_corners_missing.
Qed.
End CornersCapture.

(** ** The click loop *)

Lemma ginput_loop_bound (n : Z) (gs : list gesture) (clicks pts : list point) :
  (0 < n)%Z -> (Z.of_nat (length clicks) < n)%Z ->
  ginput_loop n clicks gs = Some pts ->
  (Z.of_nat (length pts) <= n)%Z.
Proof.
  intros Hn. revert clicks. induction gs as [|g gs IH]; intros clicks Hc; cbn.
  - intros [= <-]. lia.
  - destruct g as [p| | |].
    + rewrite length_app; cbn [length].
      destruct (Z.eqb_spec (Z.of_nat (length clicks + 1)) n) as [He|He].
      * replace (0 <? n)%Z with true by (symmetry; by apply Z.ltb_lt). cbn.
        intros [= <-]. rewrite length_app. cbn. lia.
      * cbn. apply IH. rewrite length_app. cbn. lia.
    + apply IH. destruct clicks as [|c cs] using rev_ind; [cbn; lia|].
      rewrite removelast_last. rewrite length_app in Hc. cbn in Hc. lia.
    + intros [= <-]. lia.
    + discriminate.
Qed.

Example ginput_stops_at_four : ginput 4 (clicking six_points) = take 4 six_points.
Proof. reflexivity. Qed.

Example ginput_enter_ends_early : ginput 4 (clicking (take 2 six_points)) = take 2 six_points.
Proof. reflexivity. Qed.

Example ginput_right_click_undoes (p q r : point) :
  ginput (-1) [Click p; Click q; Undo; Click r; Enter; Click p] = [p; r].
Proof. reflexivity. Qed.

Example ginput_interrupt_after_end_is_not_seen (p q r s : point) :
  interrupted 4 [Click p; Click q; Click r; Click s; Interrupt] = false /\
  interrupted 4 [Click p; Interrupt; Enter] = true.
Proof. by split. Qed.

(** A session of [ginput(n=4)] hands back at most four points. *)
Lemma ginput_4_at_most (gs : list gesture) : length (ginput 4 gs) <= 4.
Proof.
  unfold ginput. destruct (ginput_loop 4 [] gs) as [pts|] eqn:Hloop; [|cbn; lia].
  pose proof (ginput_loop_bound 4 gs [] pts ltac:(lia) ltac:(cbn; lia) Hloop) as H.
  cbn. lia.
Qed.

(** ** The loops that only print *)

Lemma run_show_points {B} (rows : list point) (i : nat) (k : unit -> M B) (w : world) :
  bind (Points.show_points i rows) k w = k tt (emits (point_lines i rows) w).
Proof.
  revert i w. induction rows as [|[x y] rows IH]; intros i w; cbn [Points.show_points point_lines].
  - rewrite run_ret. f_equal. destruct w; unfold emits; cbn. by rewrite app_nil_r.
  - steps. rewrite IH. f_equal. unfold emits, emit; cbn. by rewrite <- app_assoc.
Qed.

Lemma point_lines_no_warning (rows : list point) (i : nat) :
  mismatch_warning ∉ point_lines i rows.
Proof.
  revert i. induction rows as [|[x y] rows IH]; intros i; cbn.
  - apply not_elem_of_nil.
  - apply not_elem_of_cons. split; [discriminate|apply IH].
Qed.

(** ** A whole run in correspondence mode *)

Lemma not_warning (e : event) : is_mismatch_warning e = false -> mismatch_warning ≠ e.
Proof. intros H <-. discriminate. Qed.

Ltac no_warning :=
  repeat first
    [ apply not_elem_of_nil
    | apply point_lines_no_warning
    | apply not_elem_of_cons; split; [apply not_warning; reflexivity|]
    | apply not_elem_of_app; split ].

Ltac find_event :=
  repeat first
    [ apply list_elem_of_here
    | apply list_elem_of_further
    | apply elem_of_app; right ].

(** The closing lines of [main]. *)
Lemma echo_run (a1 a2 : ndarray) (w : world) :
  Points.echo a1 a2 w = (Ok tt, emits (echo_lines a1 a2) w).
Proof.
  unfold Points.echo. steps. unfold print. f_equal.
  unfold emits, echo_lines. apply world_eq; fields; try done. flatten_out.
Qed.

(** What a run of [main] that ends well has read, saved and printed.  The
    two click sessions are the first two scripts of the operator. *)
Lemma points_main_ok_inv (w w' : world) :
  Points.main w = (Ok tt, w') ->
  let p1 := ginput (-1) (session w) in
  let p2 := ginput (-1) (hd [] (tail (w_mouse w))) in
  exists l1 l2 rest img1 img2,
    w_stdin w = Line l1 :: Line l2 :: rest /\
    w_fs w !! "image_3.png" = Some (FImage img1) /\
    w_fs w !! "image_4.png" = Some (FImage img2) /\
    4 <= length p1 /\ length p1 <= length p2 /\
    w_fs w' = <[Points.output_file := FNpz [("image1points", np_array p1);
                                            ("image2points", np_array (take (length p1) p2))]]> (w_fs w) /\
    w_figs w' = w_figs w /\ w_stdin w' = rest /\ w_mouse w' = tail (tail (w_mouse w)) /\
    exists t0,
      w_out w' = w_out w ++ t0 ++ echo_lines (np_array p1) (np_array (take (length p1) p2)) /\
      (mismatch_warning ∈ t0 <-> length p1 < length p2).
Proof.
  intros H p1 p2. subst p1 p2. unfold Points.main, Points.greeting in H. 
  steps in H.
  destruct (w_stdin w) as [|[l1|] rest1] eqn:Hin1.
  - rewrite run_input_eof in H by done. discriminate.
  - rewrite (run_input _ l1 rest1) in H by done.
    apply bind_ok_inv in H as (pts1 & w1 & Hc1 & H).
    apply click_points_ok_inv in Hc1 as (img1 & Hfs1 & -> & Hle1 & ->). fields.
    steps in H. fields.
    destruct rest1 as [|[l2|] rest].
    + rewrite run_input_eof in H by done. discriminate.
    + rewrite (run_input _ l2 rest) in H by done.
      apply bind_ok_inv in H as (pts2 & w2 & Hc2 & H).
      apply click_points_ok_inv in Hc2 as (img2 & Hfs2 & -> & Hle2 & ->). fields.
      set (p1 := ginput (-1) (hd [] (w_mouse w))) in *.
      set (p2 := ginput (-1) (hd [] (tail (w_mouse w)))) in *.
      exists l1, l2, rest, img1, img2. do 5 (split; [done|]).
      unfold Points.reconcile, Points.report in H.
      destruct (Nat.eqb_spec (length p2) (length p1)) as [Heq|Hne]; cbn [negb] in H.
      * rewrite (take_ge p2) by lia.
        (steps in H; cbn [fst snd] in H; rewrite !run_show_points in H; steps in H;
        rewrite !run_show_points in H; steps in H).
        (rewrite echo_run in H; injection H as <-; fields).
        do 4 (split; [done|]). eexists. split.
        -- (rewrite (app_assoc (w_out w)); f_equal; flatten_out).
        -- split; [|lia]. intros Hin. exfalso. revert Hin. unfold points_shown.
           no_warning.
      * assert (Hlt : length p1 < length p2) by lia.
        rewrite (Nat.min_l _ _ Hle2) in H. unfold slice_to in H. rewrite (take_ge p1) in H by lia.
        (steps in H; cbn [fst snd] in H; rewrite !run_show_points in H; steps in H;
        rewrite !run_show_points in H; steps in H).
        (rewrite echo_run in H; injection H as <-; fields).
        do 4 (split; [done|]). eexists. split.
        -- (rewrite (app_assoc (w_out w)); f_equal; flatten_out).
        -- split; [done|]. intros _. unfold mismatch_warning. find_event.
    + rewrite (run_input_ctrl_c _ rest) in H by done. discriminate.
  - rewrite (run_input_ctrl_c _ rest1) in H by done. discriminate.
Qed.

(** With both images there, two answers at the prompts, neither click wait
    interrupted, at least four points on the first image and no fewer on the
    second, [main] ends well. *)
Lemma points_main_runs (w : world) (l1 l2 : string) (rest : list keyboard) (img1 img2 : image) :
  w_stdin w = Line l1 :: Line l2 :: rest ->
  w_fs w !! "image_3.png" = Some (FImage img1) ->
  w_fs w !! "image_4.png" = Some (FImage img2) ->
  interrupted (-1) (session w) = false ->
  interrupted (-1) (hd [] (tail (w_mouse w))) = false ->
  4 <= length (ginput (-1) (session w)) ->
  length (ginput (-1) (session w)) <= length (ginput (-1) (hd [] (tail (w_mouse w)))) ->
  (Points.main w).1 = Ok tt.
Proof.
  intros Hin Hfs1 Hfs2 Hc1 Hc2 H4 Hle. unfold Points.main, Points.greeting. steps.
  rewrite (run_input _ l1 (Line l2 :: rest)) by done.
  erewrite bind_ok; [|apply (click_points_enough _ _ _ _ img1); fields; done]. fields.
  steps. rewrite (run_input _ l2 rest) by done. fields.
  erewrite bind_ok; [|apply (click_points_enough _ _ _ _ img2); fields; done]. fields.
  unfold Points.reconcile, Points.report.
  destruct (negb _); steps; cbn [fst snd]; rewrite !run_show_points; steps;
    rewrite !run_show_points; steps; rewrite echo_run; reflexivity.
Qed.

(** A run that ends well was interrupted in neither click wait. *)
Lemma points_main_ok_calm (w w' : world) :
  Points.main w = (Ok tt, w') ->
  interrupted (-1) (session w) = false /\
  interrupted (-1) (hd [] (tail (w_mouse w))) = false.
Proof.
  intros H. unfold Points.main, Points.greeting in H. steps in H.
  destruct (w_stdin w) as [|[l1|] rest1] eqn:Hin1.
  - rewrite run_input_eof in H by done. discriminate.
  - rewrite (run_input _ l1 rest1) in H by done.
    apply bind_ok_inv in H as (pts1 & w1 & Hc1 & H).
    pose proof (click_points_ok_calm _ _ _ _ _ _ Hc1) as Hcalm1.
    apply click_points_ok_inv in Hc1 as (img1 & Hfs1 & -> & Hle1 & ->). fields.
    split; [done|]. steps in H. fields.
    destruct rest1 as [|[l2|] rest].
    + rewrite run_input_eof in H by done. discriminate.
    + rewrite (run_input _ l2 rest) in H by done.
      apply bind_ok_inv in H as (pts2 & w2 & Hc2 & _).
      apply click_points_ok_calm in Hc2. by fields.
    + rewrite (run_input_ctrl_c _ rest) in H by done. discriminate.
  - rewrite (run_input_ctrl_c _ rest1) in H by done. discriminate.
Qed.

(** With the first capture done, fewer points on the second image than on
    the first end the run in the error of the second capture. *)
Lemma points_main_fewer (w : world) (l1 l2 : string) (rest : list keyboard) (img1 img2 : image) :
  w_stdin w = Line l1 :: Line l2 :: rest ->
  w_fs w !! "image_3.png" = Some (FImage img1) ->
  w_fs w !! "image_4.png" = Some (FImage img2) ->
  interrupted (-1) (session w) = false ->
  interrupted (-1) (hd [] (tail (w_mouse w))) = false ->
  4 <= length (ginput (-1) (session w)) ->
  length (ginput (-1) (hd [] (tail (w_mouse w)))) < length (ginput (-1) (session w)) ->
  exists w',
    Points.main w
      = (Raise (too_few_points (length (ginput (-1) (session w)))
                               (length (ginput (-1) (hd [] (tail (w_mouse w)))))), w') /\
    w_stdin w' = rest /\
    w_mouse w' = tail (tail (w_mouse w)) /\
    w_fs w' = w_fs w /\
    w_figs w' = w_figs w ++ [next_fig (w_figs w)].
Proof.
  intros Hin Hf1 Hf2 Hc1 Hc2 H4 Hlt. unfold Points.main, Points.greeting. steps.
  rewrite (run_input _ l1 (Line l2 :: rest)) by done.
  erewrite bind_ok; [|apply (click_points_enough _ _ _ _ img1); fields; done]. fields.
  steps. rewrite (run_input _ l2 rest) by done. fields.
  erewrite bind_raise; [|apply (click_points_few _ _ _ _ img2); fields; done].
  eexists. split; [reflexivity|]. by fields.
Qed.

(** ** Correspondence mode: the claims *)

(** C2, as stated, fails: with five points on the first image and four on
    the second the counts differ, and the run ends in the insufficient-input
    error of the second capture; nothing is truncated and nothing is saved. *)
Lemma fewer_on_second_image_fails :
  length (ginput (-1) (session fewer_on_second)) = 5 /\
  length (ginput (-1) (hd [] (tail (w_mouse fewer_on_second)))) = 4 /\
  (Points.main fewer_on_second).1 = Raise (too_few_points 5 4) /\
  w_fs (Points.main fewer_on_second).2 !! Points.output_file = None /\
  mismatch_warning ∉ w_out (Points.main fewer_on_second).2.
Proof.
  do 4 (split; [vm_compute; reflexivity|]).
  set (out := w_out _). vm_compute in out. subst out. no_warning.
Qed.

(** C2, amended: with the first capture done on at least four points
    (both images there, both prompts answered, neither click wait
    interrupted), what the second image yields decides the run.  When it
    yields more points than the first, the run does not fail: the warning is
    printed and the archive holds the first sequence and the second cut to
    the first's length, both as arrays of that many rows, the rows being the
    points clicked, in click order.  When it yields fewer, the run ends in the
    insufficient-input error of the second capture, whose minimum is the
    first count, and nothing is saved. *)
Theorem second_count_decides_the_run
    (w : world) (l1 l2 : string) (rest : list keyboard) (img1 img2 : image) :
  let p1 := ginput (-1) (session w) in
  let p2 := ginput (-1) (hd [] (tail (w_mouse w))) in
  w_stdin w = Line l1 :: Line l2 :: rest ->
  w_fs w !! "image_3.png" = Some (FImage img1) ->
  w_fs w !! "image_4.png" = Some (FImage img2) ->
  interrupted (-1) (session w) = false ->
  interrupted (-1) (hd [] (tail (w_mouse w))) = false ->
  4 <= length p1 ->
  (length p1 < length p2 ->
   exists w' t,
     Points.main w = (Ok tt, w') /\
     w_fs w' = <[Points.output_file :=
                   FNpz [("image1points", np_array p1);
                         ("image2points", np_array (take (length p1) p2))]]> (w_fs w) /\
     np_rows (np_array p1) = p1 /\
     np_rows (np_array (take (length p1) p2)) = take (length p1) p2 /\
     nd_shape (np_array p1) = [length p1; 2] /\
     nd_shape (np_array (take (length p1) p2)) = [length p1; 2] /\
     take (length p1) p2 `prefix_of` p2 /\
     w_out w' = w_out w ++ t /\ mismatch_warning ∈ t) /\
  (length p2 < length p1 ->
   exists w',
     Points.main w = (Raise (too_few_points (length p1) (length p2)), w') /\
     w_fs w' = w_fs w).
Proof.
  intros p1 p2 Hin Hfs1 Hfs2 Hc1 Hc2 H4. split.
  - intros Hlt.
    pose proof (points_main_runs w l1 l2 rest img1 img2 Hin Hfs1 Hfs2 Hc1 Hc2 H4
                  ltac:(fold p1 p2; lia)) as Hrun.
    destruct (Points.main w) as [r w'] eqn:Hmain. cbn in Hrun. subst r.
    destruct (points_main_ok_inv w w' Hmain)
      as (_ & _ & _ & _ & _ & _ & _ & _ & _ & _ & Hfs & _ & _ & _ & t0 & Hout & Hwarn).
    fold p1 p2 in Hfs, Hout, Hwarn.
    assert (Hlen : length (take (length p1) p2) = length p1) by (apply length_take_le; lia).
    exists w', (t0 ++ echo_lines (np_array p1) (np_array (take (length p1) p2))).
    split; [done|]. split; [done|]. rewrite !np_rows_array. do 2 (split; [done|]).
    split. { apply np_shape_array. intros Hnil. rewrite Hnil in H4. cbn in H4. lia. }
    split. { rewrite np_shape_array, Hlen; [done|].
             intros Hnil. rewrite Hnil in Hlen. cbn in Hlen. lia. }
    split; [apply prefix_take|]. split; [done|].
    apply elem_of_app. left. by apply Hwarn.
  - intros Hlt.
    destruct (points_main_fewer w l1 l2 rest img1 img2 Hin Hfs1 Hfs2 Hc1 Hc2 H4 Hlt)
      as (w' & Hrun & _ & _ & Hfs & _).
    by exists w'.
Qed.

Lemma second_count_decides_the_run_witness :
  (exists w' t,
     Points.main more_on_second = (Ok tt, w') /\
     w_fs w' = <[Points.output_file :=
                   FNpz [("image1points", np_array (take 4 six_points));
                         ("image2points", np_array (take 4 six_points))]]>
                 (w_fs more_on_second) /\
     np_rows (np_array (take 4 six_points)) = take 4 six_points /\
     nd_shape (np_array (take 4 six_points)) = [4; 2] /\
     w_out w' = w_out more_on_second ++ t /\ mismatch_warning ∈ t) /\
  (exists w',
     Points.main fewer_on_second = (Raise (too_few_points 5 4), w') /\
     w_fs w' = w_fs fewer_on_second).
Proof.
  split.
  - destruct (second_count_decides_the_run more_on_second "" "" [] [3%Z] [4%Z])
      as [Hmore _]; try (vm_compute; first [reflexivity | lia]).
    destruct Hmore as (w' & t & Hrun & Hfs & Hrows & _ & Hshape & _ & _ & Hout & Hin);
      [vm_compute; lia|].
    by exists w', t.
  - destruct (second_count_decides_the_run fewer_on_second "" "" [] [3%Z] [4%Z])
      as [_ Hfewer]; try (vm_compute; first [reflexivity | lia]).
    apply Hfewer. vm_compute. lia.
Defined.

(** C4: a run of correspondence mode that ends well has written one file,
    the archive, holding exactly the two arrays [image1points] and
    [image2points], both of shape [(N, 2)] for one [N >= 4], and the console
    ends with the two arrays echoed as [np.array( repr )] literals. *)
Theorem correspondence_archive_and_echo (w w' : world) :
  Points.main w = (Ok tt, w') ->
  exists N a1 a2 t,
    4 <= N /\ nd_shape a1 = [N; 2] /\ nd_shape a2 = [N; 2] /\
    w_fs w' = <[Points.output_file := FNpz [("image1points", a1); ("image2points", a2)]]> (w_fs w) /\
    w_out w' = w_out w ++ t ++ echo_lines a1 a2.
Proof.
  intros Hmain.
  destruct (points_main_ok_inv w w' Hmain)
    as (_ & _ & _ & _ & _ & _ & _ & _ & H4 & Hle & Hfs & _ & _ & _ & t0 & Hout & _).
  set (p1 := ginput (-1) (session w)) in *.
  set (p2 := ginput (-1) (hd [] (tail (w_mouse w)))) in *.
  exists (length p1), (np_array p1), (np_array (take (length p1) p2)), t0.
  assert (Hlen : length (take (length p1) p2) = length p1) by (apply length_take_le; lia).
  split; [done|]. split.
  { apply np_shape_array. intros Hnil. rewrite Hnil in H4. cbn in H4. lia. }
  split; [|done].
  rewrite np_shape_array, Hlen; [done|].
  intros Hnil. rewrite Hnil in Hlen. cbn in Hlen. lia.
Qed.

Lemma correspondence_archive_and_echo_witness :
  exists N a1 a2 t,
    4 <= N /\ nd_shape a1 = [N; 2] /\ nd_shape a2 = [N; 2] /\
    w_fs (Points.main more_on_second).2
      = <[Points.output_file := FNpz [("image1points", a1); ("image2points", a2)]]>
          (w_fs more_on_second) /\
    w_out (Points.main more_on_second).2 = w_out more_on_second ++ t ++ echo_lines a1 a2.
Proof.
  apply (correspondence_archive_and_echo more_on_second (Points.main more_on_second).2).
  vm_compute. reflexivity.
Defined.

(** C10: in a run of correspondence mode that ends well the second
    session gave no fewer points than the first, both saved arrays have the
    length of the first sequence (the second cut to it), and the mismatch
    warning of the truncation branch is printed exactly when the second image
    gave strictly more points than the first. *)
Theorem saved_length_is_first_count (w w' : world) :
  Points.main w = (Ok tt, w') ->
  let p1 := ginput (-1) (session w) in
  let p2 := ginput (-1) (hd [] (tail (w_mouse w))) in
  length p1 <= length p2 /\
  w_fs w' !! Points.output_file
    = Some (FNpz [("image1points", np_array p1);
                  ("image2points", np_array (take (length p1) p2))]) /\
  np_len (np_array p1) = length p1 /\
  np_len (np_array (take (length p1) p2)) = length p1 /\
  exists t, w_out w' = w_out w ++ t /\ (mismatch_warning ∈ t <-> length p1 < length p2).
Proof.
  intros Hmain p1 p2.
  destruct (points_main_ok_inv w w' Hmain)
    as (_ & _ & _ & _ & _ & _ & _ & _ & H4 & Hle & Hfs & _ & _ & _ & t0 & Hout & Hwarn).
  fold p1 p2 in Hle, Hfs, Hout, Hwarn.
  split; [done|]. split; [by rewrite Hfs, lookup_insert_eq|].
  rewrite !np_len_array, length_take_le by lia. do 2 (split; [done|]).
  exists (t0 ++ echo_lines (np_array p1) (np_array (take (length p1) p2))).
  split; [done|]. rewrite elem_of_app, Hwarn. split; [|tauto].
  intros [Hlt|Hecho]; [done|]. exfalso. revert Hecho. unfold echo_lines. no_warning.
Qed.

Lemma saved_length_is_first_count_witness :
  let w := more_on_second in
  let w' := (Points.main more_on_second).2 in
  4 <= 6 /\
  w_fs w' !! Points.output_file
    = Some (FNpz [("image1points", np_array (take 4 six_points));
                  ("image2points", np_array (take 4 six_points))]) /\
  np_len (np_array (take 4 six_points)) = 4 /\
  np_len (np_array (take 4 six_points)) = 4 /\
  exists t, w_out w' = w_out w ++ t /\ (mismatch_warning ∈ t <-> 4 < 6).
Proof.
  apply (saved_length_is_first_count more_on_second (Points.main more_on_second).2).
  vm_compute. reflexivity.
Defined.

(** ** What every step leaves alone *)

Section Frame.
Context (R : world -> world -> Prop) `{!Stable R}.

Lemma keeps_ret {A} (a : A) : keeps R (ret a).
Proof. intros w. apply stable_refl. Qed.

Lemma keeps_raise {A} (e : exn) : keeps R (@raise A e).
Proof. intros w. apply stable_refl. Qed.

Lemma keeps_bind {A B} (m : M A) (k : A -> M B) :
  keeps R m -> (forall a, keeps R (k a)) -> keeps R (bind m k).
Proof.
  intros Hm Hk w. unfold bind. specialize (Hm w).
  destruct (m w) as [[a|e] w1]; cbn in *; [|done].
  eapply stable_trans; [exact Hm|apply Hk].
Qed.

Lemma keeps_raise_if (b : bool) (e : exn) : keeps R (raise_if b e).
Proof. destruct b; [apply keeps_raise|apply keeps_ret]. Qed.

Lemma keeps_print (t : text) : keeps R (print t).
Proof. intros w. apply stable_emit. Qed.

Lemma keeps_input (prompt : text) : keeps R (input prompt).
Proof.
  intros w. unfold input. destruct (w_stdin w) as [|[s|] rest]; cbn.
  - apply stable_emit.
  - eapply stable_trans; [apply stable_emit|apply stable_stdin].
  - eapply stable_trans; [apply stable_emit|apply stable_stdin].
Qed.

Lemma keeps_exists (path : string) : keeps R (os_path_exists path).
Proof. intros w. apply stable_refl. Qed.

Lemma keeps_imread (path : string) : keeps R (plt_imread path).
Proof.
  intros w. unfold plt_imread. destruct (w_fs w !! path) as [[| |]|]; apply stable_refl.
Qed.

Lemma keeps_subplots : keeps R plt_subplots.
Proof. intros w. cbn. eapply stable_trans; [apply stable_figs|apply stable_emit]. Qed.

Lemma keeps_imshow ax img : keeps R (ax_imshow ax img).
Proof. intros w. apply stable_emit. Qed.

Lemma keeps_set_title ax t : keeps R (ax_set_title ax t).
Proof. intros w. apply stable_emit. Qed.

Lemma keeps_axis_off ax : keeps R (ax_axis_off ax).
Proof. intros w. apply stable_emit. Qed.

Lemma keeps_ginput n : keeps R (plt_ginput n).
Proof.
  intros w. unfold plt_ginput. destruct (w_mouse w) as [|gs rest]; cbn.
  - apply stable_emit.
  - destruct (ginput_loop n [] gs); cbn;
      (eapply stable_trans; [apply stable_emit|apply stable_mouse]).
Qed.

Lemma keeps_close fig : keeps R (plt_close fig).
Proof. intros w. cbn. eapply stable_trans; [apply stable_figs|apply stable_emit]. Qed.

Lemma keeps_getitem {A} (l : list A) (i : nat) : keeps R (getitem l i).
Proof. unfold getitem. destruct (l !! i); [apply keeps_ret|apply keeps_raise]. Qed.

Lemma keeps_dict_get {A} (d : gmap nat A) (k : nat) : keeps R (dict_get d k).
Proof. unfold dict_get. destruct (d !! k); [apply keeps_ret|apply keeps_raise]. Qed.

(** A run that raises is a run. *)
Lemma keeps_on_raise {A} (m : M A) : keeps R m -> on_raise R m.
Proof. intros Hm w e w' Hrun. specialize (Hm w). by rewrite Hrun in Hm. Qed.

Lemma on_raise_bind {A B} (m : M A) (k : A -> M B) :
  keeps R m -> (forall a, on_raise R (k a)) -> on_raise R (bind m k).
Proof.
  intros Hm Hk w e w' Hrun. specialize (Hm w).
  apply bind_raise_inv in Hrun as [Hrun|(a & w1 & Hrun & Hrest)]; rewrite Hrun in Hm; cbn in Hm.
  - done.
  - eapply stable_trans; [exact Hm|by eapply Hk].
Qed.

(** A program that never raises has no raising run to answer for. *)
Lemma on_raise_never {A} (m : M A) :
  (forall w, exists a, (m w).1 = Ok a) -> on_raise R m.
Proof. intros Hok w e w' Hrun. destruct (Hok w) as [a Ha]. rewrite Hrun in Ha. discriminate. Qed.
End Frame.

(** Straight-line programs, step by step. *)
Ltac frame :=
  repeat first
    [ match goal with |- Stable _ => exact _ end
    | apply keeps_bind; [| |intros ?]
    | apply keeps_print | apply keeps_ret | apply keeps_raise | apply keeps_raise_if
    | apply keeps_input | apply keeps_exists | apply keeps_imread | apply keeps_subplots
    | apply keeps_imshow | apply keeps_set_title | apply keeps_axis_off
    | apply keeps_ginput | apply keeps_close | apply keeps_getitem | apply keeps_dict_get
    | assumption ].

#[export] Instance same_fs_stable : Stable same_fs.
Proof. split; unfold same_fs; intros; fields; congruence. Qed.

#[export] Instance appends_stable : Stable appends.
Proof.
  split; unfold appends; intros; fields.
  - exists []. by rewrite app_nil_r.
  - destruct H as [t1 H1], H0 as [t2 H2]. exists (t1 ++ t2). by rewrite H2, H1, app_assoc.
  - by exists [e].
  - exists []. by rewrite app_nil_r.
  - exists []. by rewrite app_nil_r.
  - exists []. by rewrite app_nil_r.
Qed.

Lemma appends_savez path entries : keeps appends (np_savez path entries).
Proof. intros w. exists []. cbn. by rewrite app_nil_r. Qed.

Section Captures.
Context (R : world -> world -> Prop) `{!Stable R}.

Lemma keeps_click_corners image_path title : keeps R (Corners.click_corners image_path title).
Proof. unfold Corners.click_corners. frame. Qed.

Lemma keeps_click_points image_path title min_points :
  keeps R (Points.click_points_on_image image_path title min_points).
Proof. unfold Points.click_points_on_image. frame. Qed.

Lemma keeps_show_corners rows : keeps R (Corners.show_corners rows).
Proof. induction rows as [|[label p] rows IH]; cbn [Corners.show_corners]; frame. Qed.

Lemma keeps_summary cp idx : keeps R (Corners.summary cp idx).
Proof. induction idx as [|i idx IH]; cbn [Corners.summary]; frame. Qed.

Lemma keeps_collect wh files : forall i cp, keeps R (Corners.collect wh i files cp).
Proof.
  induction files as [|img_file files IH]; intros i cp; cbn [Corners.collect]; frame.
  - apply keeps_show_corners.
  - apply IH.
Qed.

Lemma keeps_greeting : keeps R Corners.greeting.
Proof. unfold Corners.greeting. frame. Qed.

Lemma keeps_declined : keeps R Corners.declined.
Proof.
  unfold Corners.declined. apply keeps_bind; [done|frame|]. intros [|]; [|frame].
  apply keeps_bind; [done|frame|]. intros response. destruct (negb _); frame.
Qed.
End Captures.

(** ** A run that raises has written nothing *)

Lemma run_getitem {A B} (l : list A) (i : nat) (a : A) (k : A -> M B) (w : world) :
  l !! i = Some a -> bind (getitem l i) k w = k a w.
Proof. intros H. unfold getitem. by rewrite H. Qed.

Lemma run_dict_get {A B} (d : gmap nat A) (i : nat) (a : A) (k : A -> M B) (w : world) :
  d !! i = Some a -> bind (dict_get d i) k w = k a w.
Proof. intros H. unfold dict_get. by rewrite H. Qed.

Lemma run_dict_get_missing {A B} (d : gmap nat A) (i : nat) (k : A -> M B) (w : world) :
  d !! i = None -> bind (dict_get d i) k w = (Raise (KeyError i), w).
Proof. intros H. unfold dict_get. by rewrite H. Qed.

(** Once the six arrays are there, the closing lines of the corner script
    print without an error. *)
Lemma farewell_runs (cp : gmap nat ndarray) (c0 c1 c2 c3 c4 c5 : ndarray) (w : world) :
  cp !! 0 = Some c0 -> cp !! 1 = Some c1 -> cp !! 2 = Some c2 ->
  cp !! 3 = Some c3 -> cp !! 4 = Some c4 -> cp !! 5 = Some c5 ->
  (Corners.farewell cp w).1 = Ok tt.
Proof.
  intros H0 H1 H2 H3 H4 H5. unfold Corners.farewell. steps.
  cbn [Corners.summary seq]. steps.
  rewrite (run_getitem Corners.image_files 0 _ _ _ eq_refl). steps.
  rewrite (run_dict_get _ _ _ _ _ H0). steps.
  rewrite (run_getitem Corners.image_files 1 _ _ _ eq_refl). steps.
  rewrite (run_dict_get _ _ _ _ _ H1). steps.
  rewrite (run_getitem Corners.image_files 2 _ _ _ eq_refl). steps.
  rewrite (run_dict_get _ _ _ _ _ H2). steps.
  rewrite (run_getitem Corners.image_files 3 _ _ _ eq_refl). steps.
  rewrite (run_dict_get _ _ _ _ _ H3). steps.
  rewrite (run_getitem Corners.image_files 4 _ _ _ eq_refl). steps.
  rewrite (run_dict_get _ _ _ _ _ H4). steps.
  rewrite (run_getitem Corners.image_files 5 _ _ _ eq_refl). steps.
  rewrite (run_dict_get _ _ _ _ _ H5). steps.
  reflexivity.
Qed.

Lemma corners_raise_writes_nothing (wh : list (float * float)) :
  on_raise same_fs (Corners.main_with wh).
Proof.
  unfold Corners.main_with.
  apply on_raise_bind; [exact _|apply keeps_greeting; exact _|intros _].
  apply on_raise_bind; [exact _|apply keeps_declined; exact _|intros [|]].
  { apply keeps_on_raise. apply keeps_ret. exact _. }
  apply on_raise_bind; [exact _|apply keeps_collect; exact _|intros cp].
  intros w e w' Hrun. unfold Corners.save in Hrun. steps in Hrun.
  destruct (cp !! 0) as [c0|] eqn:H0;
    [rewrite (run_dict_get _ _ _ _ _ H0) in Hrun; steps in Hrun
    |rewrite (run_dict_get_missing _ _ _ _ H0) in Hrun; by injection Hrun as _ <-].
  destruct (cp !! 1) as [c1|] eqn:H1;
    [rewrite (run_dict_get _ _ _ _ _ H1) in Hrun; steps in Hrun
    |rewrite (run_dict_get_missing _ _ _ _ H1) in Hrun; by injection Hrun as _ <-].
  destruct (cp !! 2) as [c2|] eqn:H2;
    [rewrite (run_dict_get _ _ _ _ _ H2) in Hrun; steps in Hrun
    |rewrite (run_dict_get_missing _ _ _ _ H2) in Hrun; by injection Hrun as _ <-].
  destruct (cp !! 3) as [c3|] eqn:H3;
    [rewrite (run_dict_get _ _ _ _ _ H3) in Hrun; steps in Hrun
    |rewrite (run_dict_get_missing _ _ _ _ H3) in Hrun; by injection Hrun as _ <-].
  destruct (cp !! 4) as [c4|] eqn:H4;
    [rewrite (run_dict_get _ _ _ _ _ H4) in Hrun; steps in Hrun
    |rewrite (run_dict_get_missing _ _ _ _ H4) in Hrun; by injection Hrun as _ <-].
  destruct (cp !! 5) as [c5|] eqn:H5;
    [rewrite (run_dict_get _ _ _ _ _ H5) in Hrun; steps in Hrun
    |rewrite (run_dict_get_missing _ _ _ _ H5) in Hrun; by injection Hrun as _ <-].
  steps in Hrun.
  pose proof (farewell_runs cp c0 c1 c2 c3 c4 c5
                (set_fs (<[Corners.output_file := FNpz
                   [("corners_0", c0); ("corners_1", c1); ("corners_2", c2);
                    ("corners_3", c3); ("corners_4", c4); ("corners_5", c5)]]> (w_fs w)) w)
                H0 H1 H2 H3 H4 H5) as Hok.
  rewrite Hrun in Hok. discriminate.
Qed.

Lemma points_raise_writes_nothing : on_raise same_fs Points.main.
Proof.
  unfold Points.main.
  apply on_raise_bind; [exact _|unfold Points.greeting; frame|intros _].
  apply on_raise_bind; [exact _|frame|intros _].
  apply on_raise_bind; [exact _|apply keeps_click_points; exact _|intros points_img1].
  do 3 (apply on_raise_bind; [exact _|frame|intros _]).
  apply on_raise_bind; [exact _|frame|intros _].
  apply on_raise_bind; [exact _|apply keeps_click_points; exact _|intros points_img2].
  apply on_raise_bind; [exact _|unfold Points.reconcile; destruct (negb _); frame|intros both].
  apply on_raise_never. intros w. exists tt. unfold Points.report. steps.
  rewrite !run_show_points. steps. rewrite !run_show_points. steps.
  by rewrite echo_run.
Qed.

(** C5: a capture asked for a path that names no file raises the
    not-found error at once, in either script: the world it leaves is the
    world it found, so nothing was displayed, printed or written.  And a run of
    either script that ends in this error has left every file as it was. *)
Theorem missing_image_fails_before_display
    (image_path : string) (title : text) (min_points : nat) (w : world) :
  w_fs w !! image_path = None ->
  Corners.click_corners image_path title w = (Raise (image_not_found image_path), w) /\
  Points.click_points_on_image image_path title min_points w
    = (Raise (image_not_found image_path), w) /\
  (forall w0 w', Corners.main w0 = (Raise (image_not_found image_path), w') ->
                 w_fs w' = w_fs w0) /\
  (forall w0 w', Points.main w0 = (Raise (image_not_found image_path), w') ->
                 w_fs w' = w_fs w0).
Proof.
  intros Hnone. split; [by apply click_corners_missing|].
  split; [by apply click_points_missing|]. split.
  - intros w0 w' Hrun. exact (corners_raise_writes_nothing _ w0 _ w' Hrun).
  - intros w0 w' Hrun. exact (points_raise_writes_nothing w0 _ w' Hrun).
Qed.

Lemma missing_image_fails_before_display_witness :
  Corners.click_corners "nowhere.png" [Lit "Click 4 corners"] no_images
    = (Raise (image_not_found "nowhere.png"), no_images) /\
  Points.click_points_on_image "nowhere.png" [Lit "Click 4 corners"] 4 no_images
    = (Raise (image_not_found "nowhere.png"), no_images) /\
  (forall w0 w', Corners.main w0 = (Raise (image_not_found "nowhere.png"), w') ->
                 w_fs w' = w_fs w0) /\
  (forall w0 w', Points.main w0 = (Raise (image_not_found "nowhere.png"), w') ->
                 w_fs w' = w_fs w0).
Proof.
  apply (missing_image_fails_before_display "nowhere.png" [Lit "Click 4 corners"] 4 no_images).
  reflexivity.
Defined.

(** ** Captures that end early *)

(** C1 (code bug): in corner mode an operator who presses Enter after
    three clicks gets no error.  [click_corners] returns the three points as
    an array of shape [(3, 2)]; on the same input the capture of the other
    script raises the insufficient-input error. *)
Theorem corner_capture_returns_three_points :
  let title := [Lit "Click 4 corners"] in
  length (ginput 4 (session three_clicks)) = 3 /\
  (Corners.click_corners "painting.jpeg" title three_clicks).1
    = Ok (np_array (take 3 six_points)) /\
  nd_shape (np_array (take 3 six_points)) = [3; 2] /\
  (Points.click_points_on_image "painting.jpeg" title 4 three_clicks).1
    = Raise (too_few_points 4 3).
Proof. intros title. do 3 (split; [vm_compute; reflexivity|]). vm_compute; reflexivity. Qed.

(** C9 (code bug): the capture of correspondence mode that fails for too
    few points leaves its figure open: no figure was open before, figure 1
    is open after, and no close of it was logged.  The corner capture on the
    same input closes its figure. *)
Theorem failed_capture_leaves_figure_open :
  let title := [Lit "Click points"] in
  let after := (Points.click_points_on_image "painting.jpeg" title 4 three_clicks).2 in
  (Points.click_points_on_image "painting.jpeg" title 4 three_clicks).1
    = Raise (too_few_points 4 3) /\
  w_figs three_clicks = [] /\
  w_figs after = [1] /\
  last (w_out after) = Some (EGinput 1 (-1)) /\
  w_figs (Corners.click_corners "painting.jpeg" title three_clicks).2 = [].
Proof.
  intros title after. do 4 (split; [vm_compute; reflexivity|]). vm_compute; reflexivity.
Qed.

(** ** The top-level block *)

Lemma dunder_main_interrupt (main : M unit) (w w' : world) :
  main w = (Raise KeyboardInterrupt, w') ->
  dunder_main main w = (Clean, emit interrupted_notice w').
Proof. intros H. unfold dunder_main. by rewrite H. Qed.

Lemma dunder_main_error (main : M unit) (w w' : world) (e : exn) (msg : text) :
  raised_with e msg ->
  main w = (Raise e, w') ->
  dunder_main main w = (Traceback e, emit (error_line msg) w').
Proof.
  intros He H. unfold dunder_main. rewrite H.
  destruct He as [->|[->|[->|[->|[->|(k & -> & ->)]]]]]; reflexivity.
Qed.

(** Every exception but the interrupt carries a message to print. *)
Lemma raised_with_total (e : exn) : e ≠ KeyboardInterrupt -> exists msg, raised_with e msg.
Proof. unfold raised_with. destruct e; intros He; [eauto 10..|done]. Qed.

(** C8: in both scripts an operator interrupt that leaves [main] is
    caught: the notice is printed and the process ends cleanly.  Any other
    exception is printed, as the error line followed by the message it was
    raised with, and raised again, so the process ends with its traceback;
    every exception but the interrupt has such a message. *)
Theorem entry_points_handle_errors (w w' : world) (e : exn) :
  (Corners.main w = (Raise KeyboardInterrupt, w') ->
   Corners.script w = (Clean, emit interrupted_notice w')) /\
  (Points.main w = (Raise KeyboardInterrupt, w') ->
   Points.script w = (Clean, emit interrupted_notice w')) /\
  (forall msg, raised_with e msg -> Corners.main w = (Raise e, w') ->
   Corners.script w = (Traceback e, emit (error_line msg) w')) /\
  (forall msg, raised_with e msg -> Points.main w = (Raise e, w') ->
   Points.script w = (Traceback e, emit (error_line msg) w')) /\
  (e ≠ KeyboardInterrupt -> exists msg, raised_with e msg).
Proof.
  split; [|split; [|split; [|split]]].
  - apply dunder_main_interrupt.
  - apply dunder_main_interrupt.
  - intros msg. apply dunder_main_error.
  - intros msg. apply dunder_main_error.
  - apply raised_with_total.
Qed.

Lemma entry_points_handle_errors_witness :
  Corners.script interrupting
    = (Clean, emit interrupted_notice (Corners.main interrupting).2) /\
  Points.script interrupted_click
    = (Clean, emit interrupted_notice (Points.main interrupted_click).2) /\
  Corners.script no_images
    = (Traceback (image_not_found "Christinas World — Wyeth.jpeg"),
       emit (EPrint [Lit (nl +:+ nl +:+ "❌ Error: "); Lit "Image not found: ";
                     Lit "Christinas World — Wyeth.jpeg"])
            (Corners.main no_images).2) /\
  Points.script closed_input
    = (Traceback (EOFError [Lit "EOF when reading a line"]),
       emit (EPrint [Lit (nl +:+ nl +:+ "❌ Error: "); Lit "EOF when reading a line"])
            (Points.main closed_input).2).
Proof.
  split; [|split; [|split]].
  - apply (entry_points_handle_errors interrupting _ KeyboardInterrupt).
    vm_compute. reflexivity.
  - apply (entry_points_handle_errors interrupted_click _ KeyboardInterrupt).
    vm_compute. reflexivity.
  - destruct (entry_points_handle_errors no_images (Corners.main no_images).2
                (image_not_found "Christinas World — Wyeth.jpeg")) as (_ & _ & H & _).
    apply (H [Lit "Image not found: "; Lit "Christinas World — Wyeth.jpeg"]).
    + by left.
    + vm_compute. reflexivity.
  - destruct (entry_points_handle_errors closed_input (Points.main closed_input).2
                (EOFError [Lit "EOF when reading a line"])) as (_ & _ & _ & H & _).
    apply (H [Lit "EOF when reading a line"]).
    + do 4 right. by left.
    + vm_compute. reflexivity.
Defined.

(** ** Corner mode: the overwrite question *)

Lemma run_corners_greeting {B} (k : unit -> M B) (w : world) :
  bind Corners.greeting k w = k tt (emits corners_greeting w).
Proof.
  unfold Corners.greeting. steps. f_equal.
  unfold emits, corners_greeting. apply world_eq; fields; try done. flatten_out.
Qed.

(** Everything after the question only adds to the log. *)
Lemma collecting_appends (wh : list (float * float)) :
  keeps appends
    (let* corner_points := Corners.collect wh 0 Corners.image_files ∅ in
     Corners.save corner_points >> Corners.farewell corner_points).
Proof.
  apply keeps_bind; [exact _|apply keeps_collect; exact _|intros cp].
  apply keeps_bind; [exact _| |intros _].
  - unfold Corners.save. frame. apply appends_savez.
  - unfold Corners.farewell. frame.
Qed.

(** With an archive there, the question follows the greeting, whatever
    happens next. *)
Lemma question_comes_first (wh : list (float * float)) (w : world) (f : file) :
  w_fs w !! Corners.output_file = Some f ->
  exists t, w_out (Corners.main_with wh w).2 = w_out w ++ corners_greeting ++ overwrite_question :: t.
Proof.
  intros Hf. unfold Corners.main_with. rewrite run_corners_greeting.
  unfold Corners.declined. steps. fields.
  change "painting_corners.npz" with Corners.output_file.
  rewrite bool_decide_eq_true_2 by eauto. cbv iota. steps.
  destruct (w_stdin w) as [|[response|] rest] eqn:Hin.
  - rewrite run_input_eof by done. exists []. fields. by rewrite <- app_assoc.
  - rewrite (run_input _ response rest) by done.
    destruct (negb _).
    + steps. exists [EPrint [Lit "Exiting without overwriting."]]. cbn. by rewrite <- !app_assoc.
    + steps. match goal with |- context [bind ?m ?k ?w0] => destruct (collecting_appends wh w0) as [t Ht] end.
      exists t. fold Corners.main_with in *. rewrite Ht. fields. by rewrite <- !app_assoc.
  - rewrite (run_input_ctrl_c _ rest) by done. exists []. fields. by rewrite <- app_assoc.
Qed.

(** An answer other than [y] or [Y] ends the run there. *)
Lemma declined_run (wh : list (float * float)) (w : world) (f : file)
    (response : string) (rest : list keyboard) :
  w_fs w !! Corners.output_file = Some f ->
  w_stdin w = Line response :: rest ->
  lower response ≠ "y" ->
  Corners.main_with wh w
  = (Ok tt,
     World (w_fs w) (w_figs w) rest (w_mouse w)
           (w_out w ++ corners_greeting
              ++ [overwrite_question; EPrint [Lit "Exiting without overwriting."]])).
Proof.
  intros Hf Hin Hno. unfold Corners.main_with. rewrite run_corners_greeting.
  unfold Corners.declined. steps. fields.
  change "painting_corners.npz" with Corners.output_file.
  rewrite bool_decide_eq_true_2 by eauto. cbv iota. steps.
  rewrite (run_input _ response rest) by done.
  apply String.eqb_neq in Hno. rewrite Hno. cbn [negb]. steps. unfold ret. f_equal.
  apply world_eq; fields; try done. by rewrite <- !app_assoc.
Qed.

(** C6: in corner mode, with an earlier archive in place, the overwrite
    question is the first thing after the greeting lines, before any image is
    read or shown; and when the answer is not yes the run ends there: every
    file, the archive included, is as it was, no figure was opened, no click
    session was used, and the log holds only the greeting, the question and
    the parting line. *)
Theorem declining_overwrite_changes_nothing (w : world) (f : file) :
  w_fs w !! Corners.output_file = Some f ->
  (exists t, w_out (Corners.main w).2 = w_out w ++ corners_greeting ++ overwrite_question :: t) /\
  forallb is_print corners_greeting = true /\
  forall response rest,
    w_stdin w = Line response :: rest ->
    lower response ≠ "y" ->
    Corners.main w
    = (Ok tt,
       World (w_fs w) (w_figs w) rest (w_mouse w)
             (w_out w ++ corners_greeting
                ++ [overwrite_question; EPrint [Lit "Exiting without overwriting."]])).
Proof.
  intros Hf. split; [by eapply question_comes_first|]. split; [reflexivity|].
  intros response rest Hin Hno. by eapply declined_run.
Qed.

Lemma declining_overwrite_changes_nothing_witness :
  (exists t, w_out (Corners.main cautious).2
             = w_out cautious ++ corners_greeting ++ overwrite_question :: t) /\
  Corners.main cautious
  = (Ok tt,
     World (w_fs cautious) (w_figs cautious) [] (w_mouse cautious)
           (w_out cautious ++ corners_greeting
              ++ [overwrite_question; EPrint [Lit "Exiting without overwriting."]])).
Proof.
  destruct (declining_overwrite_changes_nothing cautious earlier_archive) as (Hq & _ & Hno).
  - vm_compute. reflexivity.
  - split; [exact Hq|]. apply (Hno "n" []); [reflexivity|discriminate].
Defined.

(** The sample operator does decline, and the earlier archive is still there. *)
Lemma cautious_keeps_archive :
  lower "n" ≠ "y" /\
  (Corners.main cautious).1 = Ok tt /\
  w_fs (Corners.main cautious).2 !! Corners.output_file = Some earlier_archive /\
  w_figs (Corners.main cautious).2 = [] /\
  w_mouse (Corners.main cautious).2 = w_mouse cautious.
Proof.
  split; [discriminate|]. do 3 (split; [vm_compute; reflexivity|]). vm_compute; reflexivity.
Qed.

(** ** Corner mode: what is saved *)

Lemma run_show_corners {B} (rows : list (string * point)) (k : unit -> M B) (w : world) :
  bind (Corners.show_corners rows) k w = k tt (emits (corner_lines rows) w).
Proof.
  revert w. induction rows as [|[label p] rows IH]; intros w;
    cbn [Corners.show_corners corner_lines].
  - rewrite run_ret. f_equal. destruct w; unfold emits; cbn. by rewrite app_nil_r.
  - steps. rewrite IH. f_equal. unfold emits, emit; cbn. by rewrite <- app_assoc.
Qed.

(** The loop, when it ends well, has used one click session per image and
    stored what each session gave under the index of its image. *)
Lemma collect_ok_inv (wh : list (float * float)) (files : list string) :
  forall (i : nat) (cp : gmap nat ndarray) (w : world) (cp' : gmap nat ndarray) (w' : world),
    Corners.collect wh i files cp w = (Ok cp', w') ->
    w_fs w' = w_fs w /\ w_figs w' = w_figs w /\
    forall j, cp' !! j
              = if decide (i <= j < i + length files)
                then Some (np_array (corners_clicked w (j - i)))
                else cp !! j.
Proof.
  induction files as [|img_file files IH]; intros i cp w cp' w' H; cbn [Corners.collect] in H.
  - injection H as <- <-. do 2 (split; [done|]). intros j. cbn [length].
    destruct (decide _); [lia|done].
  - unfold getitem in H. destruct (wh !! i) as [dims|]; [|discriminate].
    steps in H.
    destruct (w_stdin w) as [|[l|] rest] eqn:Hin.
    + rewrite run_input_eof in H by done. discriminate.
    + rewrite (run_input _ l rest) in H by done.
      apply bind_ok_inv in H as (corners & w2 & Hc & H).
      apply click_corners_ok_inv in Hc as (img & Hfs & -> & ->). fields.
      steps in H. rewrite run_show_corners in H.
      apply IH in H as (Hfs' & Hfigs' & Hcp). fields.
      do 2 (split; [done|]). intros j. rewrite Hcp. unfold corners_clicked. fields.
      cbn [length]. destruct (decide (S i <= j < S i + length files)) as [Hj|Hj].
      * rewrite decide_True by lia. do 3 f_equal.
        replace (j - i) with (S (j - S i)) by lia.
        destruct (w_mouse w); [by destruct (j - S i)|done].
      * destruct (decide (j = i)) as [->|Hne].
        -- rewrite decide_True by lia. rewrite lookup_insert_eq. do 3 f_equal.
           rewrite Nat.sub_diag. by destruct (w_mouse w).
        -- rewrite decide_False by lia. by rewrite lookup_insert_ne.
    + rewrite (run_input_ctrl_c _ rest) in H by done. discriminate.
Qed.

Lemma keeps_farewell (R : world -> world -> Prop) `{!Stable R} (cp : gmap nat ndarray) :
  keeps R (Corners.farewell cp).
Proof. unfold Corners.farewell. frame. Qed.

(** The six arrays of the archive, as the sessions of [w] give them. *)
Lemma saving_ok_inv (wh : list (float * float)) (w w' : world) :
  (let* corner_points := Corners.collect wh 0 Corners.image_files ∅ in
   Corners.save corner_points >> Corners.farewell corner_points) w = (Ok tt, w') ->
  w_fs w' = <[Corners.output_file :=
                FNpz [ ("corners_0", np_array (corners_clicked w 0));
                       ("corners_1", np_array (corners_clicked w 1));
                       ("corners_2", np_array (corners_clicked w 2));
                       ("corners_3", np_array (corners_clicked w 3));
                       ("corners_4", np_array (corners_clicked w 4));
                       ("corners_5", np_array (corners_clicked w 5)) ]]> (w_fs w).
Proof.
  intros H. apply bind_ok_inv in H as (cp & w1 & Hc & H).
  apply collect_ok_inv in Hc as (Hfs & _ & Hcp).
  pose proof (Hcp 0) as H0. pose proof (Hcp 1) as H1. pose proof (Hcp 2) as H2.
  pose proof (Hcp 3) as H3. pose proof (Hcp 4) as H4. pose proof (Hcp 5) as H5.
  rewrite decide_True in H0 by (cbn; lia). rewrite decide_True in H1 by (cbn; lia).
  rewrite decide_True in H2 by (cbn; lia). rewrite decide_True in H3 by (cbn; lia).
  rewrite decide_True in H4 by (cbn; lia). rewrite decide_True in H5 by (cbn; lia).
  cbn [Nat.sub] in *.
  unfold Corners.save in H. steps in H.
  rewrite (run_dict_get _ _ _ _ _ H0) in H. steps in H.
  rewrite (run_dict_get _ _ _ _ _ H1) in H. steps in H.
  rewrite (run_dict_get _ _ _ _ _ H2) in H. steps in H.
  rewrite (run_dict_get _ _ _ _ _ H3) in H. steps in H.
  rewrite (run_dict_get _ _ _ _ _ H4) in H. steps in H.
  rewrite (run_dict_get _ _ _ _ _ H5) in H. steps in H.
  match type of H with
  | Corners.farewell ?c ?w2 = _ => pose proof (keeps_farewell same_fs c w2) as Hk
  end.
  rewrite H in Hk. unfold same_fs in Hk. fields. by rewrite Hk, Hfs.
Qed.

(** A corner run that ends well either stopped at the overwrite question,
    with every file as it was, or saved the six arrays its six click
    sessions gave, in order, under the names [corners_0] to [corners_5]. *)
Lemma corners_main_ok_inv (wh : list (float * float)) (w w' : world) :
  Corners.main_with wh w = (Ok tt, w') ->
  (is_Some (w_fs w !! Corners.output_file) /\ w_fs w' = w_fs w /\ w_figs w' = w_figs w) \/
  w_fs w' = <[Corners.output_file :=
                FNpz [ ("corners_0", np_array (corners_clicked w 0));
                       ("corners_1", np_array (corners_clicked w 1));
                       ("corners_2", np_array (corners_clicked w 2));
                       ("corners_3", np_array (corners_clicked w 3));
                       ("corners_4", np_array (corners_clicked w 4));
                       ("corners_5", np_array (corners_clicked w 5)) ]]> (w_fs w).
Proof.
  intros H. unfold Corners.main_with in H. rewrite run_corners_greeting in H.
  unfold Corners.declined in H. steps in H. fields.
  change "painting_corners.npz" with Corners.output_file in H.
  destruct (bool_decide (is_Some (w_fs w !! Corners.output_file))) eqn:Hex;
    cbv iota in H; steps in H.
  - apply bool_decide_eq_true in Hex.
    destruct (w_stdin w) as [|[response|] rest] eqn:Hin.
    + rewrite run_input_eof in H by done. discriminate.
    + rewrite (run_input _ response rest) in H by done.
      destruct (negb _); steps in H.
      * injection H as <-. left. by fields.
      * right. apply saving_ok_inv in H. unfold corners_clicked in *. by fields.
    + rewrite (run_input_ctrl_c _ rest) in H by done. discriminate.
  - right. apply saving_ok_inv in H. unfold corners_clicked in *. by fields.
Qed.

(** Every array of the archive has at most four rows, and four when the
    session gave four points. *)
Lemma corners_clicked_shape (w : world) (i : nat) :
  np_len (np_array (corners_clicked w i)) <= 4 /\
  (length (corners_clicked w i) = 4 -> nd_shape (np_array (corners_clicked w i)) = [4; 2]).
Proof.
  split.
  - rewrite np_len_array. apply ginput_4_at_most.
  - intros H4. rewrite np_shape_array, H4; [done|].
    intros Hnil. rewrite Hnil in H4. discriminate.
Qed.

(** C3 (code bug): a corner run in which the operator presses Enter after
    three clicks on the first painting ends well and saves six arrays under
    the names [corners_0] to [corners_5], but the first of them has shape
    [(3, 2)], not [(4, 2)]. *)
Theorem hasty_run_saves_three_corners :
  (Corners.script hasty).1 = Clean /\
  exists c0 c,
    w_fs (Corners.script hasty).2 !! Corners.output_file
      = Some (FNpz [ ("corners_0", c0); ("corners_1", c); ("corners_2", c);
                     ("corners_3", c); ("corners_4", c); ("corners_5", c) ]) /\
    nd_shape c0 = [3; 2] /\ nd_shape c = [4; 2].
Proof.
  split; [vm_compute; reflexivity|].
  exists (np_array (take 3 six_points)), (np_array (take 4 six_points)).
  split; [vm_compute; reflexivity|]. split; reflexivity.
Qed.

(** ** Corner mode: the table of dimensions *)

Lemma silent_app (out1 out2 : list event) : silent (out1 ++ out2) = silent out1 ++ silent out2.
Proof.
  induction out1 as [|e out1 IH]; [done|]. cbn. destruct (is_print e); cbn; by rewrite IH.
Qed.

Lemma alike_refl (w : world) : alike w w.
Proof. by repeat split. Qed.

Lemma alike_emit (e : event) (w1 w2 : world) : alike w1 w2 -> alike (emit e w1) (emit e w2).
Proof.
  intros (Hfs & Hfigs & Hin & Hm & Hout). repeat split; fields; try done.
  by rewrite !silent_app, Hout.
Qed.

(** Two printed lines, the same or not, leave alike worlds alike. *)
Lemma alike_print (t1 t2 : text) (w1 w2 : world) :
  alike w1 w2 -> alike (emit (EPrint t1) w1) (emit (EPrint t2) w2).
Proof.
  intros (Hfs & Hfigs & Hin & Hm & Hout). repeat split; fields; try done.
  by rewrite !silent_app, Hout.
Qed.

Lemma agree_eq {A} (r1 r2 : result A) : agree eq r1 r2 -> r1 = r2.
Proof. destruct r1, r2; cbn; by intros []. Qed.

Section Sim.
Context {A B : Type}.

Lemma sim_bind (Q : A -> A -> Prop) (Q' : B -> B -> Prop) (m1 m2 : M A) (k1 k2 : A -> M B) :
  sim Q m1 m2 -> (forall a1 a2, Q a1 a2 -> sim Q' (k1 a1) (k2 a2)) ->
  sim Q' (bind m1 k1) (bind m2 k2).
Proof.
  intros Hm Hk w1 w2 Hw. unfold bind. destruct (Hm w1 w2 Hw) as [Hr Hw'].
  destruct (m1 w1) as [[a1|e1] w1'], (m2 w2) as [[a2|e2] w2']; cbn in *; try done.
  by apply Hk.
Qed.

Lemma sim_bind_eq (Q' : B -> B -> Prop) (m1 m2 : M A) (k1 k2 : A -> M B) :
  sim eq m1 m2 -> (forall a, sim Q' (k1 a) (k2 a)) -> sim Q' (bind m1 k1) (bind m2 k2).
Proof. intros Hm Hk. apply (sim_bind eq); [done|]. intros a1 a2 <-. apply Hk. Qed.

Lemma sim_ret (a : A) : sim eq (ret a) (ret a).
Proof. intros w1 w2 Hw. by split. Qed.

Lemma sim_raise (e : exn) : sim eq (@raise A e) (raise e).
Proof. intros w1 w2 Hw. by split. Qed.

Lemma sim_getitem_same (l : list A) (i : nat) : sim eq (getitem l i) (getitem l i).
Proof. unfold getitem. destruct (l !! i); [apply sim_ret|apply sim_raise]. Qed.

Lemma sim_dict_get (d : gmap nat A) (i : nat) : sim eq (dict_get d i) (dict_get d i).
Proof. unfold dict_get. destruct (d !! i); [apply sim_ret|apply sim_raise]. Qed.

(** Looking up a row in two tables of the same length: both find one, or
    both raise the same [IndexError]. *)
Lemma sim_getitem (l1 l2 : list A) (i : nat) :
  length l1 = length l2 -> sim (fun _ _ => True) (getitem l1 i) (getitem l2 i).
Proof.
  intros Hlen w1 w2 Hw. unfold getitem.
  destruct (l1 !! i) as [a1|] eqn:H1, (l2 !! i) as [a2|] eqn:H2; cbn; try done.
  - apply lookup_lt_Some in H1. apply lookup_ge_None in H2. lia.
  - apply lookup_lt_Some in H2. apply lookup_ge_None in H1. lia.
Qed.
End Sim.

Lemma sim_print (t1 t2 : text) : sim eq (print t1) (print t2).
Proof. intros w1 w2 Hw. split; [done|]. by apply alike_print. Qed.

Lemma sim_raise_if (b : bool) (e : exn) : sim eq (raise_if b e) (raise_if b e).
Proof. destruct b; [apply sim_raise|apply sim_ret]. Qed.

Lemma sim_input (prompt : text) : sim eq (input prompt) (input prompt).
Proof.
  intros w1 w2 Hw.
  pose proof (alike_emit (EPrompt prompt) _ _ Hw) as (Hfs & Hfigs & _ & Hm & Hout).
  destruct Hw as (_ & _ & Hin & _). unfold input. rewrite <- Hin.
  destruct (w_stdin w1) as [|[s|] rest] eqn:Hw1; (split; [done|]);
    repeat split; fields; congruence.
Qed.

Lemma sim_exists (path : string) : sim eq (os_path_exists path) (os_path_exists path).
Proof.
  intros w1 w2 Hw. unfold os_path_exists. pose proof Hw as (Hfs & _). rewrite Hfs. by split.
Qed.

Lemma sim_imread (path : string) : sim eq (plt_imread path) (plt_imread path).
Proof.
  intros w1 w2 Hw. unfold plt_imread. pose proof Hw as (Hfs & _). rewrite <- Hfs.
  by destruct (w_fs w1 !! path) as [[| |]|].
Qed.

Lemma sim_subplots : sim eq plt_subplots plt_subplots.
Proof.
  intros w1 w2 Hw. unfold plt_subplots. destruct Hw as (Hfs & Hfigs & Hin & Hm & Hout).
  rewrite <- Hfigs. split; [done|]. repeat split; fields; try done.
  by rewrite !silent_app, Hout.
Qed.

Lemma sim_imshow ax img : sim eq (ax_imshow ax img) (ax_imshow ax img).
Proof. intros w1 w2 Hw. split; [done|]. by apply alike_emit. Qed.

Lemma sim_set_title ax t : sim eq (ax_set_title ax t) (ax_set_title ax t).
Proof. intros w1 w2 Hw. split; [done|]. by apply alike_emit. Qed.

Lemma sim_axis_off ax : sim eq (ax_axis_off ax) (ax_axis_off ax).
Proof. intros w1 w2 Hw. split; [done|]. by apply alike_emit. Qed.

Lemma sim_ginput n : sim eq (plt_ginput n) (plt_ginput n).
Proof.
  intros w1 w2 Hw. unfold plt_ginput. destruct Hw as (Hfs & Hfigs & Hin & Hm & Hout).
  rewrite <- Hfigs, <- Hm.
  destruct (w_mouse w1) as [|gs rest] eqn:Hw1; [|destruct (ginput_loop n [] gs)];
    (split; [done|]); repeat split; fields; rewrite ?silent_app; congruence.
Qed.

Lemma sim_close fig : sim eq (plt_close fig) (plt_close fig).
Proof.
  intros w1 w2 Hw. unfold plt_close. destruct Hw as (Hfs & Hfigs & Hin & Hm & Hout).
  rewrite <- Hfigs. split; [done|]. repeat split; fields; try done.
  by rewrite !silent_app, Hout.
Qed.

Lemma sim_savez path entries : sim eq (np_savez path entries) (np_savez path entries).
Proof.
  intros w1 w2 Hw. unfold np_savez. destruct Hw as (Hfs & Hfigs & Hin & Hm & Hout).
  rewrite <- Hfs. split; [done|]. by repeat split.
Qed.

(** Programs that are the same up to what they print, step by step. *)
Ltac simulate :=
  repeat first
    [ apply sim_bind_eq; [|intros ?]
    | apply sim_print | apply sim_ret | apply sim_raise | apply sim_raise_if
    | apply sim_input | apply sim_exists | apply sim_imread | apply sim_subplots
    | apply sim_imshow | apply sim_set_title | apply sim_axis_off
    | apply sim_ginput | apply sim_close | apply sim_savez
    | apply sim_getitem_same | apply sim_dict_get ].

Lemma sim_click_corners image_path title :
  sim eq (Corners.click_corners image_path title) (Corners.click_corners image_path title).
Proof. unfold Corners.click_corners. simulate. Qed.

Lemma sim_show_corners rows : sim eq (Corners.show_corners rows) (Corners.show_corners rows).
Proof. induction rows as [|[label p] rows IH]; cbn [Corners.show_corners]; simulate. apply IH. Qed.

Lemma sim_summary cp idx : sim eq (Corners.summary cp idx) (Corners.summary cp idx).
Proof. induction idx as [|i idx IH]; cbn [Corners.summary]; simulate. apply IH. Qed.

(** The loop over the images, run with two tables of the same length. *)
Lemma sim_collect (wh1 wh2 : list (float * float)) (files : list string) :
  length wh1 = length wh2 ->
  forall i cp, sim eq (Corners.collect wh1 i files cp) (Corners.collect wh2 i files cp).
Proof.
  intros Hlen. induction files as [|img_file files IH]; intros i cp; cbn [Corners.collect].
  - apply sim_ret.
  - eapply sim_bind; [by apply sim_getitem|]. intros dims1 dims2 _. cbv zeta.
    do 5 (apply sim_bind_eq; [apply sim_print|intros _]).
    apply sim_bind_eq; [apply sim_input|intros _].
    apply sim_bind_eq; [apply sim_click_corners|intros corners].
    apply sim_bind_eq; [apply sim_print|intros _].
    apply sim_bind_eq; [apply sim_show_corners|intros _].
    apply IH.
Qed.

Lemma sim_main_with (wh1 wh2 : list (float * float)) :
  length wh1 = length wh2 -> sim eq (Corners.main_with wh1) (Corners.main_with wh2).
Proof.
  intros Hlen. unfold Corners.main_with.
  apply sim_bind_eq; [unfold Corners.greeting; simulate|intros _].
  apply sim_bind_eq.
  { unfold Corners.declined. apply sim_bind_eq; [apply sim_exists|intros [|]].
    - apply sim_bind_eq; [apply sim_input|intros response]. destruct (negb _); simulate.
    - apply sim_ret. }
  intros [|]; [apply sim_ret|].
  apply sim_bind_eq; [by apply sim_collect|intros cp].
  apply sim_bind_eq; [unfold Corners.save; simulate|intros _].
  unfold Corners.farewell. simulate.
Qed.

(** C7: two corner runs that differ only in the table of dimensions (two
    tables with the same number of rows) from the same world collect the same
    corner points, end the same way, and leave the same files, the archive
    included, the same figures and the same log but for printed lines. *)
Theorem dimensions_only_reach_the_console (wh1 wh2 : list (float * float)) (w : world) :
  length wh1 = length wh2 ->
  (Corners.collect wh1 0 Corners.image_files ∅ w).1
    = (Corners.collect wh2 0 Corners.image_files ∅ w).1 /\
  (Corners.main_with wh1 w).1 = (Corners.main_with wh2 w).1 /\
  w_fs (Corners.main_with wh1 w).2 = w_fs (Corners.main_with wh2 w).2 /\
  alike (Corners.main_with wh1 w).2 (Corners.main_with wh2 w).2.
Proof.
  intros Hlen.
  destruct (sim_collect wh1 wh2 Corners.image_files Hlen 0 ∅ w w (alike_refl w)) as [Hc _].
  destruct (sim_main_with wh1 wh2 Hlen w w (alike_refl w)) as [Hr Hw].
  split; [by apply agree_eq|]. split; [by apply agree_eq|]. split; [apply Hw|done].
Qed.

Lemma dimensions_only_reach_the_console_witness :
  (Corners.collect Corners.paintings_wh 0 Corners.image_files ∅ hasty).1
    = (Corners.collect square_frames 0 Corners.image_files ∅ hasty).1 /\
  (Corners.main_with Corners.paintings_wh hasty).1 = (Corners.main_with square_frames hasty).1 /\
  w_fs (Corners.main_with Corners.paintings_wh hasty).2
    = w_fs (Corners.main_with square_frames hasty).2 /\
  alike (Corners.main_with Corners.paintings_wh hasty).2 (Corners.main_with square_frames hasty).2.
Proof.
  apply (dimensions_only_reach_the_console Corners.paintings_wh square_frames hasty).
  reflexivity.
Defined.

(** The two tables of the witness do print different lines. *)
Lemma tables_differ_on_console :
  w_out (Corners.main_with Corners.paintings_wh hasty).2
    ≠ w_out (Corners.main_with square_frames hasty).2.
Proof.
  intros H. apply (f_equal (fun out => out !! 12)) in H. vm_compute in H. discriminate.
Qed.

(** * Further properties of the two scripts *)

(** ** The captures *)

(** X1: the corner capture ends with the figures open that were open
    before, no file changed and no answer read from the keyboard, on every
    path (image missing, image unreadable, points returned) but one: when
    Ctrl-C arrives during the click wait, the capture ends in
    [KeyboardInterrupt] before [plt.close(fig)], and its figure stays open. *)
Theorem corner_capture_closes_unless_interrupted
    (image_path : string) (title : text) (w : world) :
  (interrupted 4 (session w) = false \/
   (forall img, w_fs w !! image_path ≠ Some (FImage img)) ->
   w_figs (Corners.click_corners image_path title w).2 = w_figs w /\
   w_fs (Corners.click_corners image_path title w).2 = w_fs w /\
   w_stdin (Corners.click_corners image_path title w).2 = w_stdin w) /\
  (forall img,
     w_fs w !! image_path = Some (FImage img) ->
     interrupted 4 (session w) = true ->
     (Corners.click_corners image_path title w).1 = Raise KeyboardInterrupt /\
     w_figs (Corners.click_corners image_path title w).2
       = w_figs w ++ [next_fig (w_figs w)] /\
     w_fs (Corners.click_corners image_path title w).2 = w_fs w).
Proof.
  split.
  - intros Hcase. destruct (w_fs w !! image_path) as [f|] eqn:Hf.
    + destruct f as [img| |].
      * destruct Hcase as [Hcalm|Hno]; [|by edestruct Hno].
        by rewrite (click_corners_shown _ _ _ img).
      * by rewrite (click_corners_unreadable _ _ _ (FNpz entries)).
      * by rewrite (click_corners_unreadable _ _ _ (FRaw bytes)).
    + by rewrite click_corners_missing.
  - intros img Hf Hint. by rewrite (click_corners_interrupted _ _ _ img).
Qed.

Lemma corner_capture_closes_unless_interrupted_witness :
  (w_figs (Corners.click_corners "painting.jpeg" [Lit "Click 4 corners"] three_clicks).2
     = w_figs three_clicks /\
   w_fs (Corners.click_corners "painting.jpeg" [Lit "Click 4 corners"] three_clicks).2
     = w_fs three_clicks /\
   w_stdin (Corners.click_corners "painting.jpeg" [Lit "Click 4 corners"] three_clicks).2
     = w_stdin three_clicks) /\
  ((Corners.click_corners "painting.jpeg" [Lit "Click 4 corners"] interrupted_corner).1
     = Raise KeyboardInterrupt /\
   w_figs (Corners.click_corners "painting.jpeg" [Lit "Click 4 corners"] interrupted_corner).2
     = w_figs interrupted_corner ++ [next_fig (w_figs interrupted_corner)] /\
   w_fs (Corners.click_corners "painting.jpeg" [Lit "Click 4 corners"] interrupted_corner).2
     = w_fs interrupted_corner).
Proof.
  split.
  - apply (proj1 (corner_capture_closes_unless_interrupted
                    "painting.jpeg" [Lit "Click 4 corners"] three_clicks)).
    left. reflexivity.
  - apply (proj2 (corner_capture_closes_unless_interrupted
                    "painting.jpeg" [Lit "Click 4 corners"] interrupted_corner) [7%Z]).
    + vm_compute. reflexivity.
    + reflexivity.
Defined.

(** X2: a corner capture that returns hands back the points of its click
    session, in click order, as the rows of the array; they are at most four,
    the array has shape [(4, 2)] when they are four, and one click session
    was used. *)
Theorem corner_capture_returns_clicks
    (image_path : string) (title : text) (w : world) (corners : ndarray) (w' : world) :
  Corners.click_corners image_path title w = (Ok corners, w') ->
  np_rows corners = ginput 4 (session w) /\
  np_len corners <= 4 /\
  (np_len corners = 4 -> nd_shape corners = [4; 2]) /\
  w_mouse w' = tail (w_mouse w).
Proof.
  intros Hrun. apply click_corners_ok_inv in Hrun as (img & _ & -> & ->).
  split; [apply np_rows_array|]. rewrite np_len_array.
  split; [apply ginput_4_at_most|]. split; [|done].
  intros H4. rewrite np_shape_array, H4; [done|].
  intros Hnil. rewrite Hnil in H4. discriminate.
Qed.

Lemma corner_capture_returns_clicks_witness :
  np_rows (np_array (take 3 six_points)) = ginput 4 (session three_clicks) /\
  np_len (np_array (take 3 six_points)) <= 4 /\
  (np_len (np_array (take 3 six_points)) = 4 ->
   nd_shape (np_array (take 3 six_points)) = [4; 2]) /\
  w_mouse (Corners.click_corners "painting.jpeg" [Lit "Click 4 corners"] three_clicks).2
    = tail (w_mouse three_clicks).
Proof.
  apply (corner_capture_returns_clicks "painting.jpeg" [Lit "Click 4 corners"] three_clicks).
  vm_compute. reflexivity.
Defined.

(** X3: a capture of correspondence mode that returns hands back exactly
    the points of its click session, in click order and at least
    [min_points] of them; its figure is closed again, no file has changed,
    one click session was used and the last line printed reports the count. *)
Theorem points_capture_returns_clicks
    (image_path : string) (title : text) (min_points : nat) (w : world)
    (points : list point) (w' : world) :
  Points.click_points_on_image image_path title min_points w = (Ok points, w') ->
  points = ginput (-1) (session w) /\
  min_points <= length points /\
  w_figs w' = w_figs w /\ w_fs w' = w_fs w /\ w_mouse w' = tail (w_mouse w) /\
  last (w_out w')
    = Some (EPrint [Lit (nl +:+ "✓ Collected "); Int (length points);
                    Lit " points from "; Lit image_path]).
Proof.
  intros Hrun. apply click_points_ok_inv in Hrun as (img & _ & -> & Hmin & ->).
  do 5 (split; [done|]). fields.
  by rewrite !last_app.
Qed.

Lemma points_capture_returns_clicks_witness :
  take 4 six_points = ginput (-1) (session more_on_second) /\
  4 <= length (take 4 six_points) /\
  w_figs (Points.click_points_on_image "image_3.png" [Lit "Image 3"] 4 more_on_second).2
    = w_figs more_on_second /\
  w_fs (Points.click_points_on_image "image_3.png" [Lit "Image 3"] 4 more_on_second).2
    = w_fs more_on_second /\
  w_mouse (Points.click_points_on_image "image_3.png" [Lit "Image 3"] 4 more_on_second).2
    = tail (w_mouse more_on_second) /\
  last (w_out (Points.click_points_on_image "image_3.png" [Lit "Image 3"] 4 more_on_second).2)
    = Some (EPrint [Lit (nl +:+ "✓ Collected "); Int (length (take 4 six_points));
                    Lit " points from "; Lit "image_3.png"]).
Proof.
  apply (points_capture_returns_clicks "image_3.png" [Lit "Image 3"] 4 more_on_second).
  vm_compute. reflexivity.
Defined.

(** X4: with the image there, a click session that is not interrupted
    and gives fewer than [min_points] points makes the capture raise [ValueError] naming both
    numbers; the session is used up, the figure the capture opened stays
    open, the last thing logged is the click session, and no file has
    changed. *)
Theorem points_capture_too_few
    (image_path : string) (title : text) (min_points : nat) (w : world) (img : image) :
  w_fs w !! image_path = Some (FImage img) ->
  interrupted (-1) (session w) = false ->
  length (ginput (-1) (session w)) < min_points ->
  exists w',
    Points.click_points_on_image image_path title min_points w
      = (Raise (too_few_points min_points (length (ginput (-1) (session w)))), w') /\
    w_figs w' = w_figs w ++ [next_fig (w_figs w)] /\
    w_mouse w' = tail (w_mouse w) /\
    w_fs w' = w_fs w /\
    last (w_out w') = Some (EGinput (next_fig (w_figs w)) (-1)).
Proof.
  intros Hf Hcalm Hlt. eexists. split; [by apply (click_points_few _ _ _ _ img)|].
  fields. do 3 (split; [done|]).
  by rewrite last_app.
Qed.

Lemma points_capture_too_few_witness :
  exists w',
    Points.click_points_on_image "painting.jpeg" [Lit "Click points"] 4 three_clicks
      = (Raise (too_few_points 4 (length (ginput (-1) (session three_clicks)))), w') /\
    w_figs w' = w_figs three_clicks ++ [next_fig (w_figs three_clicks)] /\
    w_mouse w' = tail (w_mouse three_clicks) /\
    w_fs w' = w_fs three_clicks /\
    last (w_out w') = Some (EGinput (next_fig (w_figs three_clicks)) (-1)).
Proof.
  apply (points_capture_too_few "painting.jpeg" [Lit "Click points"] 4 three_clicks [7%Z]).
  - vm_compute. reflexivity.
  - reflexivity.
  - vm_compute. lia.
Defined.

(** ** Runs of correspondence mode *)

(** X5: when the first click session, not interrupted, gives fewer than four points, the
    run ends in the [ValueError] of the first capture: the second prompt is
    never shown (its answer is still unread), the second click session is
    unused, no file has changed, and the figure of the first image is open. *)
Theorem too_few_on_first_image_ends_run
    (w : world) (l1 : string) (rest : list keyboard) (img1 : image) :
  w_stdin w = Line l1 :: rest ->
  w_fs w !! "image_3.png" = Some (FImage img1) ->
  interrupted (-1) (session w) = false ->
  length (ginput (-1) (session w)) < 4 ->
  exists w',
    Points.main w = (Raise (too_few_points 4 (length (ginput (-1) (session w)))), w') /\
    w_stdin w' = rest /\
    w_mouse w' = tail (w_mouse w) /\
    w_fs w' = w_fs w /\
    w_figs w' = w_figs w ++ [next_fig (w_figs w)].
Proof.
  intros Hin Hf Hcalm Hlt. unfold Points.main, Points.greeting. steps.
  rewrite (run_input _ l1 rest) by done.
  erewrite bind_raise; [|apply (click_points_few _ _ _ _ img1); fields; done].
  eexists. split; [reflexivity|]. by fields.
Qed.

Lemma too_few_on_first_image_ends_run_witness :
  exists w',
    Points.main two_on_first
      = (Raise (too_few_points 4 (length (ginput (-1) (session two_on_first)))), w') /\
    w_stdin w' = [Line ""] /\
    w_mouse w' = tail (w_mouse two_on_first) /\
    w_fs w' = w_fs two_on_first /\
    w_figs w' = w_figs two_on_first ++ [next_fig (w_figs two_on_first)].
Proof.
  apply (too_few_on_first_image_ends_run two_on_first "" [Line ""] [3%Z]).
  - reflexivity.
  - vm_compute. reflexivity.
  - reflexivity.
  - vm_compute. lia.
Defined.

(** X6: when the first capture succeeded and the second click session,
    not interrupted, gives fewer points than the first, the run ends in the [ValueError] of the
    second capture, which names the first count as the minimum; both prompts
    were answered, both sessions are used, no file has changed and the
    figure of the second image is open. *)
Theorem fewer_on_second_image_ends_run
    (w : world) (l1 l2 : string) (rest : list keyboard) (img1 img2 : image) :
  let p1 := ginput (-1) (session w) in
  let p2 := ginput (-1) (hd [] (tail (w_mouse w))) in
  w_stdin w = Line l1 :: Line l2 :: rest ->
  w_fs w !! "image_3.png" = Some (FImage img1) ->
  w_fs w !! "image_4.png" = Some (FImage img2) ->
  interrupted (-1) (session w) = false ->
  interrupted (-1) (hd [] (tail (w_mouse w))) = false ->
  4 <= length p1 ->
  length p2 < length p1 ->
  exists w',
    Points.main w = (Raise (too_few_points (length p1) (length p2)), w') /\
    w_stdin w' = rest /\
    w_mouse w' = tail (tail (w_mouse w)) /\
    w_fs w' = w_fs w /\
    w_figs w' = w_figs w ++ [next_fig (w_figs w)].
Proof.
  intros p1 p2 Hin Hf1 Hf2 Hc1 Hc2 H4 Hlt.
  by apply (points_main_fewer w l1 l2 rest img1 img2).
Qed.

Lemma fewer_on_second_image_ends_run_witness :
  exists w',
    Points.main fewer_on_second = (Raise (too_few_points 5 4), w') /\
    w_stdin w' = [] /\
    w_mouse w' = tail (tail (w_mouse fewer_on_second)) /\
    w_fs w' = w_fs fewer_on_second /\
    w_figs w' = w_figs fewer_on_second ++ [next_fig (w_figs fewer_on_second)].
Proof.
  apply (fewer_on_second_image_ends_run fewer_on_second "" "" [] [3%Z] [4%Z]).
  - reflexivity.
  - vm_compute. reflexivity.
  - vm_compute. reflexivity.
  - reflexivity.
  - reflexivity.
  - vm_compute. lia.
  - vm_compute. lia.
Defined.

(** X7: a run of correspondence mode ends well exactly when both prompts
    are answered, both images are there and readable, neither click wait is
    interrupted, the first click session gives at least four points and the
    second at least as many as the first. *)
Theorem correspondence_run_ends_well_iff (w : world) :
  (exists w', Points.main w = (Ok tt, w')) <->
  (exists l1 l2 rest img1 img2,
     w_stdin w = Line l1 :: Line l2 :: rest /\
     w_fs w !! "image_3.png" = Some (FImage img1) /\
     w_fs w !! "image_4.png" = Some (FImage img2) /\
     interrupted (-1) (session w) = false /\
     interrupted (-1) (hd [] (tail (w_mouse w))) = false /\
     4 <= length (ginput (-1) (session w)) /\
     length (ginput (-1) (session w)) <= length (ginput (-1) (hd [] (tail (w_mouse w))))).
Proof.
  split.
  - intros [w' Hrun]. destruct (points_main_ok_calm w w' Hrun) as [Hc1 Hc2].
    destruct (points_main_ok_inv w w' Hrun)
      as (l1 & l2 & rest & img1 & img2 & Hin & Hf1 & Hf2 & H4 & Hle & _).
    by exists l1, l2, rest, img1, img2.
  - intros (l1 & l2 & rest & img1 & img2 & Hin & Hf1 & Hf2 & Hc1 & Hc2 & H4 & Hle).
    pose proof (points_main_runs w l1 l2 rest img1 img2 Hin Hf1 Hf2 Hc1 Hc2 H4 Hle) as Hok.
    destruct (Points.main w) as [r w'] eqn:Hrun. cbn in Hok. subst r. by exists w'.
Qed.

(** X8: a run of correspondence mode that ends in an exception, whichever
    it is, has left every file as it was: the archive is written by the one
    [np.savez] call, after which nothing can fail. *)
Theorem failed_correspondence_run_saves_nothing (w : world) (e : exn) (w' : world) :
  Points.main w = (Raise e, w') -> w_fs w' = w_fs w.
Proof. apply points_raise_writes_nothing. Qed.

Lemma failed_correspondence_run_saves_nothing_witness :
  w_fs (Points.main fewer_on_second).2 = w_fs fewer_on_second.
Proof.
  apply (failed_correspondence_run_saves_nothing fewer_on_second (too_few_points 5 4)).
  vm_compute. reflexivity.
Defined.

(** ** Runs of corner mode *)

(** The first of [S n] calm click sessions, and the [n] after it. *)
Lemma calm_sessions_S (n : nat) (sessions : list (list gesture)) :
  Forall (fun gs => interrupted 4 gs = false) (take (S n) sessions) ->
  interrupted 4 (hd [] sessions) = false /\
  Forall (fun gs => interrupted 4 gs = false) (take n (tail sessions)).
Proof.
  destruct sessions as [|gs rest]; cbn.
  - intros _. split; [done|]. by rewrite take_nil.
  - by intros [? ?]%Forall_cons.
Qed.

(** The loop goes through every image that is there, one answered prompt and
    one click session each, whatever the sessions give, as long as none is
    interrupted. *)
Lemma collect_runs (wh : list (float * float)) (files : list string) :
  forall (i : nat) (cp : gmap nat ndarray) (w : world) (ls : list string) (rest : list keyboard),
    length ls = length files ->
    w_stdin w = map Line ls ++ rest ->
    i + length files <= length wh ->
    Forall (fun f => exists img, w_fs w !! f = Some (FImage img)) files ->
    Forall (fun gs => interrupted 4 gs = false) (take (length files) (w_mouse w)) ->
    exists cp' w', Corners.collect wh i files cp w = (Ok cp', w') /\ w_stdin w' = rest.
Proof.
  induction files as [|img_file files IH]; intros i cp w ls rest Hlen Hin Hwh Hall Hcalm;
    cbn [Corners.collect].
  - destruct ls; [|discriminate]. by exists cp, w.
  - destruct ls as [|l ls]; [discriminate|]. cbn [length map app] in *.
    apply Forall_cons in Hall as [[img Himg] Hall].
    apply calm_sessions_S in Hcalm as [Hcalm1 Hcalm].
    destruct (lookup_lt_is_Some_2 wh i ltac:(lia)) as [dims Hdims].
    rewrite (run_getitem _ _ _ _ _ Hdims). steps.
    rewrite (run_input _ l (map Line ls ++ rest)) by done.
    erewrite bind_ok; [|apply (click_corners_shown _ _ _ img); fields; done]. fields.
    steps. rewrite run_show_corners.
    apply (IH (S i) _ _ ls rest); fields; try done; lia.
Qed.

(** The loop stops at the first image that is not there: the images before
    it were shown and clicked, the missing one raises. *)
Lemma collect_stops_at_missing (wh : list (float * float)) (pre : list string) :
  forall (i : nat) (cp : gmap nat ndarray) (w : world) (ls : list string) (rest : list keyboard)
         (file : string) (post : list string),
    length ls = S (length pre) ->
    w_stdin w = map Line ls ++ rest ->
    i + length pre < length wh ->
    Forall (fun f => exists img, w_fs w !! f = Some (FImage img)) pre ->
    Forall (fun gs => interrupted 4 gs = false) (take (length pre) (w_mouse w)) ->
    w_fs w !! file = None ->
    exists w',
      Corners.collect wh i (pre ++ file :: post) cp w = (Raise (image_not_found file), w') /\
      w_fs w' = w_fs w /\ w_figs w' = w_figs w /\
      w_stdin w' = rest /\ w_mouse w' = drop (length pre) (w_mouse w).
Proof.
  induction pre as [|img_file pre IH];
    intros i cp w ls rest file post Hlen Hin Hwh Hall Hcalm Hnone; cbn [Corners.collect app].
  - destruct ls as [|l [|? ?]]; try discriminate. cbn [length map app] in *.
    destruct (lookup_lt_is_Some_2 wh i ltac:(lia)) as [dims Hdims].
    rewrite (run_getitem _ _ _ _ _ Hdims). steps.
    rewrite (run_input _ l rest) by done.
    erewrite bind_raise; [|by apply click_corners_missing].
    eexists. split; [reflexivity|]. fields. by rewrite drop_0.
  - destruct ls as [|l ls]; [discriminate|]. cbn [length map app] in *.
    apply Forall_cons in Hall as [[img Himg] Hall].
    apply calm_sessions_S in Hcalm as [Hcalm1 Hcalm].
    destruct (lookup_lt_is_Some_2 wh i ltac:(lia)) as [dims Hdims].
    rewrite (run_getitem _ _ _ _ _ Hdims). steps.
    rewrite (run_input _ l (map Line ls ++ rest)) by done.
    erewrite bind_ok; [|apply (click_corners_shown _ _ _ img); fields; done]. fields.
    steps. rewrite run_show_corners.
    match goal with
    | |- context [Corners.collect wh (S i) _ ?cp0 ?w0] =>
        destruct (IH (S i) cp0 w0 ls rest file post) as (w' & Hrun & Hfs & Hfigs & Hst & Hm)
    end; fields; try done; try lia.
    exists w'. split; [exact Hrun|]. do 3 (split; [done|]).
    rewrite Hm. destruct (w_mouse w); [by destruct (length pre)|done].
Qed.

(** Once the loop has gone through the six images, saving and the closing
    lines cannot fail. *)
Lemma saving_runs (wh : list (float * float)) (w : world)
    (cp : gmap nat ndarray) (w1 : world) :
  Corners.collect wh 0 Corners.image_files ∅ w = (Ok cp, w1) ->
  ((let* corner_points := Corners.collect wh 0 Corners.image_files ∅ in
    Corners.save corner_points >> Corners.farewell corner_points) w).1 = Ok tt.
Proof.
  intros Hc. rewrite (bind_ok _ _ _ _ _ Hc).
  apply collect_ok_inv in Hc as (_ & _ & Hcp).
  pose proof (Hcp 0) as H0. pose proof (Hcp 1) as H1. pose proof (Hcp 2) as H2.
  pose proof (Hcp 3) as H3. pose proof (Hcp 4) as H4. pose proof (Hcp 5) as H5.
  rewrite decide_True in H0 by (cbn; lia). rewrite decide_True in H1 by (cbn; lia).
  rewrite decide_True in H2 by (cbn; lia). rewrite decide_True in H3 by (cbn; lia).
  rewrite decide_True in H4 by (cbn; lia). rewrite decide_True in H5 by (cbn; lia).
  unfold Corners.save. steps.
  rewrite (run_dict_get _ _ _ _ _ H0). steps.
  rewrite (run_dict_get _ _ _ _ _ H1). steps.
  rewrite (run_dict_get _ _ _ _ _ H2). steps.
  rewrite (run_dict_get _ _ _ _ _ H3). steps.
  rewrite (run_dict_get _ _ _ _ _ H4). steps.
  rewrite (run_dict_get _ _ _ _ _ H5). steps.
  by eapply farewell_runs.
Qed.

(** X9: a run of corner mode that ends in an exception, whichever it is,
    has left every file as it was: the six arrays are written by the one
    [np.savez] call at the end, so the corners clicked before the failure
    are lost. *)
Theorem failed_corner_run_saves_nothing (w : world) (e : exn) (w' : world) :
  Corners.main w = (Raise e, w') -> w_fs w' = w_fs w.
Proof. apply corners_raise_writes_nothing. Qed.

Lemma failed_corner_run_saves_nothing_witness :
  w_fs (Corners.main interrupting).2 = w_fs interrupting.
Proof.
  apply (failed_corner_run_saves_nothing interrupting KeyboardInterrupt).
  vm_compute. reflexivity.
Defined.

(** X10: with no earlier archive, a run of corner mode that ends well has
    written one file, the archive, holding under the names [corners_0] to
    [corners_5], in this order, what the six click sessions gave, in the
    order of the images; the rows of each array are the points clicked, in
    click order, and they are at most four. *)
Theorem corner_run_saves_the_six_sessions (w w' : world) :
  w_fs w !! Corners.output_file = None ->
  Corners.main w = (Ok tt, w') ->
  w_fs w' = <[Corners.output_file :=
                FNpz [ ("corners_0", np_array (corners_clicked w 0));
                       ("corners_1", np_array (corners_clicked w 1));
                       ("corners_2", np_array (corners_clicked w 2));
                       ("corners_3", np_array (corners_clicked w 3));
                       ("corners_4", np_array (corners_clicked w 4));
                       ("corners_5", np_array (corners_clicked w 5)) ]]> (w_fs w) /\
  forall i, np_rows (np_array (corners_clicked w i)) = corners_clicked w i /\
            np_len (np_array (corners_clicked w i)) <= 4.
Proof.
  intros Hnone Hrun. split.
  - apply corners_main_ok_inv in Hrun as [([f Hf] & _)|Hsaved]; [congruence|done].
  - intros i. split; [apply np_rows_array|apply corners_clicked_shape].
Qed.

Lemma corner_run_saves_the_six_sessions_witness :
  w_fs (Corners.main hasty).2
    = <[Corners.output_file :=
          FNpz [ ("corners_0", np_array (corners_clicked hasty 0));
                 ("corners_1", np_array (corners_clicked hasty 1));
                 ("corners_2", np_array (corners_clicked hasty 2));
                 ("corners_3", np_array (corners_clicked hasty 3));
                 ("corners_4", np_array (corners_clicked hasty 4));
                 ("corners_5", np_array (corners_clicked hasty 5)) ]]> (w_fs hasty) /\
  forall i, np_rows (np_array (corners_clicked hasty i)) = corners_clicked hasty i /\
            np_len (np_array (corners_clicked hasty i)) <= 4.
Proof.
  apply (corner_run_saves_the_six_sessions hasty (Corners.main hasty).2).
  - vm_compute. reflexivity.
  - vm_compute. reflexivity.
Defined.

(** X11: with an earlier archive in place and the answer [y] or [Y] to
    the overwrite question, a run that ends well has replaced the archive by
    the six arrays of this run; every other file is as it was. *)
Theorem accepted_overwrite_replaces_archive
    (w w' : world) (f : file) (response : string) (rest : list keyboard) :
  w_fs w !! Corners.output_file = Some f ->
  w_stdin w = Line response :: rest ->
  lower response = "y" ->
  Corners.main w = (Ok tt, w') ->
  w_fs w' = <[Corners.output_file :=
                FNpz [ ("corners_0", np_array (corners_clicked w 0));
                       ("corners_1", np_array (corners_clicked w 1));
                       ("corners_2", np_array (corners_clicked w 2));
                       ("corners_3", np_array (corners_clicked w 3));
                       ("corners_4", np_array (corners_clicked w 4));
                       ("corners_5", np_array (corners_clicked w 5)) ]]> (w_fs w).
Proof.
  intros Hf Hin Hyes H. unfold Corners.main, Corners.main_with in H.
  rewrite run_corners_greeting in H. unfold Corners.declined in H. steps in H. fields.
  change "painting_corners.npz" with Corners.output_file in H.
  rewrite bool_decide_eq_true_2 in H by eauto. cbv iota in H. steps in H.
  rewrite (run_input _ response rest) in H by done.
  apply String.eqb_eq in Hyes. rewrite Hyes in H. cbn [negb] in H. steps in H.
  apply saving_ok_inv in H. unfold corners_clicked in *. by fields.
Qed.

Lemma accepted_overwrite_replaces_archive_witness :
  w_fs (Corners.main overwriting).2
    = <[Corners.output_file :=
          FNpz [ ("corners_0", np_array (corners_clicked overwriting 0));
                 ("corners_1", np_array (corners_clicked overwriting 1));
                 ("corners_2", np_array (corners_clicked overwriting 2));
                 ("corners_3", np_array (corners_clicked overwriting 3));
                 ("corners_4", np_array (corners_clicked overwriting 4));
                 ("corners_5", np_array (corners_clicked overwriting 5)) ]]>
        (w_fs overwriting).
Proof.
  apply (accepted_overwrite_replaces_archive overwriting (Corners.main overwriting).2
           earlier_archive "Y" (replicate 6 (Line ""))).
  - vm_compute. reflexivity.
  - reflexivity.
  - reflexivity.
  - vm_compute. reflexivity.
Defined.

(** X12: with no earlier archive, when the image number [k] of the list
    is not in the directory while those before it are, the prompts up to it
    are answered and none of the [k] click waits before it is interrupted, the run ends in the not-found error of that image after
    [k] click sessions; no file has changed, so the corners clicked on the
    images before it are lost, and no figure is left open. *)
Theorem missing_painting_ends_run
    (w : world) (k : nat) (file : string) (ls : list string) (rest : list keyboard) :
  w_fs w !! Corners.output_file = None ->
  Corners.image_files !! k = Some file ->
  Forall (fun f => exists img, w_fs w !! f = Some (FImage img)) (take k Corners.image_files) ->
  w_fs w !! file = None ->
  Forall (fun gs => interrupted 4 gs = false) (take k (w_mouse w)) ->
  length ls = S k ->
  w_stdin w = map Line ls ++ rest ->
  exists w',
    Corners.main w = (Raise (image_not_found file), w') /\
    w_fs w' = w_fs w /\ w_figs w' = w_figs w /\
    w_stdin w' = rest /\ w_mouse w' = drop k (w_mouse w).
Proof.
  intros Hnone Hk Hall Hmiss Hcalm Hlen Hin.
  assert (Hk6 : k < 6) by (apply lookup_lt_Some in Hk; exact Hk).
  assert (Hpre : length (take k Corners.image_files) = k)
    by (rewrite length_take_le; [done|cbn; lia]).
  unfold Corners.main, Corners.main_with. rewrite run_corners_greeting.
  unfold Corners.declined. steps. fields.
  change "painting_corners.npz" with Corners.output_file.
  rewrite bool_decide_eq_false_2 by (rewrite Hnone; by intros [? ?]). cbv iota. steps.
  match goal with
  | |- context [bind (Corners.collect ?wh 0 _ ?cp0) _ ?w0] =>
      destruct (collect_stops_at_missing wh (take k Corners.image_files) 0 cp0 w0 ls rest
                  file (drop (S k) Corners.image_files))
        as (w' & Hrun & Hfs & Hfigs & Hst & Hm)
  end; fields; rewrite ?Hpre; try done; try (cbn; lia).
  rewrite (take_drop_middle _ _ _ Hk) in Hrun. rewrite (bind_raise _ _ _ _ _ Hrun).
  exists w'. by rewrite Hpre in Hm.
Qed.

Lemma missing_painting_ends_run_witness :
  exists w',
    Corners.main third_missing
      = (Raise (image_not_found "Les Demoiselles dAvignon — Picasso.jpeg"), w') /\
    w_fs w' = w_fs third_missing /\ w_figs w' = w_figs third_missing /\
    w_stdin w' = replicate 3 (Line "") /\ w_mouse w' = drop 2 (w_mouse third_missing).
Proof.
  apply (missing_painting_ends_run third_missing 2 "Les Demoiselles dAvignon — Picasso.jpeg"
           (replicate 3 "") (replicate 3 (Line ""))).
  - vm_compute. reflexivity.
  - reflexivity.
  - repeat constructor; exists [0%Z]; vm_compute; reflexivity.
  - vm_compute. reflexivity.
  - repeat constructor.
  - reflexivity.
  - reflexivity.
Defined.

(** X13: with no earlier archive, the six images in the directory, the
    six prompts answered and none of the six click waits interrupted, a run
    of corner mode ends well and saves, whatever the click sessions gave: the number of corners clicked is never looked
    at. *)
Theorem corner_run_ends_well_whatever_is_clicked
    (w : world) (ls : list string) (rest : list keyboard) :
  w_fs w !! Corners.output_file = None ->
  Forall (fun f => exists img, w_fs w !! f = Some (FImage img)) Corners.image_files ->
  Forall (fun gs => interrupted 4 gs = false) (take 6 (w_mouse w)) ->
  length ls = 6 ->
  w_stdin w = map Line ls ++ rest ->
  exists w',
    Corners.main w = (Ok tt, w') /\
    w_fs w' !! Corners.output_file
      = Some (FNpz [ ("corners_0", np_array (corners_clicked w 0));
                     ("corners_1", np_array (corners_clicked w 1));
                     ("corners_2", np_array (corners_clicked w 2));
                     ("corners_3", np_array (corners_clicked w 3));
                     ("corners_4", np_array (corners_clicked w 4));
                     ("corners_5", np_array (corners_clicked w 5)) ]).
Proof.
  intros Hnone Hall Hcalm Hlen Hin.
  assert (Hok : (Corners.main w).1 = Ok tt).
  { unfold Corners.main, Corners.main_with. rewrite run_corners_greeting.
    unfold Corners.declined. steps. fields.
    change "painting_corners.npz" with Corners.output_file.
    rewrite bool_decide_eq_false_2 by (rewrite Hnone; by intros [? ?]). cbv iota. steps.
    match goal with
    | |- context [bind (Corners.collect ?wh 0 _ ?cp0) _ ?w0] =>
        destruct (collect_runs wh Corners.image_files 0 cp0 w0 ls rest)
          as (cp & w1 & Hc & _)
    end; fields; try done; try (cbn; lia).
    by apply (saving_runs _ _ cp w1). }
  destruct (Corners.main w) as [r w'] eqn:Hrun. cbn in Hok. subst r.
  exists w'. split; [done|].
  apply corners_main_ok_inv in Hrun as [([f Hf] & _)|Hsaved]; [congruence|].
  by rewrite Hsaved, lookup_insert_eq.
Qed.

Lemma corner_run_ends_well_whatever_is_clicked_witness :
  exists w',
    Corners.main hasty = (Ok tt, w') /\
    w_fs w' !! Corners.output_file
      = Some (FNpz [ ("corners_0", np_array (corners_clicked hasty 0));
                     ("corners_1", np_array (corners_clicked hasty 1));
                     ("corners_2", np_array (corners_clicked hasty 2));
                     ("corners_3", np_array (corners_clicked hasty 3));
                     ("corners_4", np_array (corners_clicked hasty 4));
                     ("corners_5", np_array (corners_clicked hasty 5)) ]).
Proof.
  apply (corner_run_ends_well_whatever_is_clicked hasty (replicate 6 "") []).
  - vm_compute. reflexivity.
  - repeat constructor; exists [0%Z]; vm_compute; reflexivity.
  - repeat constructor.
  - reflexivity.
  - reflexivity.
Defined.

(** ** Figures and the operator's answers *)

(** X14: a run of correspondence mode that ends well has read exactly two
    answers from the keyboard, used exactly two click sessions, and left the
    figures open that were open before: both of its figures are closed. *)
Theorem correspondence_run_uses_two_sessions (w w' : world) :
  Points.main w = (Ok tt, w') ->
  w_figs w' = w_figs w /\
  w_mouse w' = tail (tail (w_mouse w)) /\
  exists l1 l2, w_stdin w = Line l1 :: Line l2 :: w_stdin w'.
Proof.
  intros Hrun.
  destruct (points_main_ok_inv w w' Hrun)
    as (l1 & l2 & rest & _ & _ & Hin & _ & _ & _ & _ & _ & Hfigs & Hrest & Hm & _).
  do 2 (split; [done|]). exists l1, l2. by rewrite Hrest.
Qed.

Lemma correspondence_run_uses_two_sessions_witness :
  w_figs (Points.main more_on_second).2 = w_figs more_on_second /\
  w_mouse (Points.main more_on_second).2 = tail (tail (w_mouse more_on_second)) /\
  exists l1 l2, w_stdin more_on_second = Line l1 :: Line l2 :: w_stdin (Points.main more_on_second).2.
Proof.
  apply (correspondence_run_uses_two_sessions more_on_second (Points.main more_on_second).2).
  vm_compute. reflexivity.
Defined.

Section FigsKept.
Context {A B : Type}.

Lemma figs_kept_bind (m : M A) (k : A -> M B) :
  figs_kept m -> (forall a, figs_kept (k a)) -> figs_kept (bind m k).
Proof.
  intros Hm Hk w Hcalm. unfold bind. destruct (Hm w Hcalm) as [Hcalm1 Hfigs1].
  destruct (m w) as [[a|e] w1]; cbn in *; [|done].
  destruct (Hk a w1 Hcalm1) as [Hcalm2 Hfigs2]. split; [done|congruence].
Qed.

Lemma figs_kept_ret (a : A) : figs_kept (ret a).
Proof. by intros w. Qed.

Lemma figs_kept_raise (e : exn) : figs_kept (@raise A e).
Proof. by intros w. Qed.

Lemma figs_kept_getitem (l : list A) (i : nat) : figs_kept (getitem l i).
Proof. unfold getitem. destruct (l !! i); [apply figs_kept_ret|apply figs_kept_raise]. Qed.

Lemma figs_kept_dict_get (d : gmap nat A) (i : nat) : figs_kept (dict_get d i).
Proof. unfold dict_get. destruct (d !! i); [apply figs_kept_ret|apply figs_kept_raise]. Qed.
End FigsKept.

Lemma figs_kept_print (t : text) : figs_kept (print t).
Proof. by intros w. Qed.

Lemma figs_kept_input (prompt : text) : figs_kept (input prompt).
Proof. intros w Hcalm. unfold input. by destruct (w_stdin w) as [|[s|] rest]. Qed.

Lemma figs_kept_exists (path : string) : figs_kept (os_path_exists path).
Proof. by intros w. Qed.

Lemma figs_kept_savez path entries : figs_kept (np_savez path entries).
Proof. by intros w. Qed.

(** The corner capture uses at most the next click session. *)
Lemma click_corners_mouse image_path title (w : world) :
  w_mouse (Corners.click_corners image_path title w).2 = w_mouse w \/
  w_mouse (Corners.click_corners image_path title w).2 = tail (w_mouse w).
Proof.
  destruct (w_fs w !! image_path) as [f|] eqn:Hf.
  - destruct f as [img| |].
    + destruct (interrupted 4 (session w)) eqn:Hint.
      * right. by rewrite (click_corners_interrupted _ _ _ img).
      * right. by rewrite (click_corners_shown _ _ _ img).
    + left. by rewrite (click_corners_unreadable _ _ _ (FNpz entries)).
    + left. by rewrite (click_corners_unreadable _ _ _ (FRaw bytes)).
  - left. by rewrite click_corners_missing.
Qed.

Lemma figs_kept_click_corners image_path title :
  figs_kept (Corners.click_corners image_path title).
Proof.
  intros w Hcalm. split.
  - unfold calm in *. destruct (click_corners_mouse image_path title w) as [->| ->]; [done|].
    destruct (w_mouse w); [done|]. by apply Forall_cons in Hcalm as [_ ?].
  - apply click_corners_figs. unfold calm, session in *.
    destruct (w_mouse w); [done|]. by apply Forall_cons in Hcalm as [? _].
Qed.

(** Programs without figures of their own, step by step. *)
Ltac figures :=
  repeat first
    [ apply figs_kept_click_corners
    | apply figs_kept_bind; [|intros ?]
    | apply figs_kept_print | apply figs_kept_ret | apply figs_kept_raise
    | apply figs_kept_input | apply figs_kept_exists | apply figs_kept_savez
    | apply figs_kept_getitem | apply figs_kept_dict_get ].

Lemma figs_kept_show_corners rows : figs_kept (Corners.show_corners rows).
Proof.
  induction rows as [|[label p] rows IH]; cbn [Corners.show_corners]; figures. apply IH.
Qed.

Lemma figs_kept_collect wh files : forall i cp, figs_kept (Corners.collect wh i files cp).
Proof.
  induction files as [|img_file files IH]; intros i cp; cbn [Corners.collect]; figures.
  - apply figs_kept_show_corners.
  - apply IH.
Qed.

Lemma figs_kept_main : figs_kept Corners.main.
Proof.
  unfold Corners.main, Corners.main_with.
  apply figs_kept_bind; [unfold Corners.greeting; figures|intros _].
  apply figs_kept_bind.
  { unfold Corners.declined. apply figs_kept_bind; [figures|intros [|]]; [|figures].
    apply figs_kept_bind; [figures|intros response]. destruct (negb _); figures. }
  intros [|]; [figures|].
  apply figs_kept_bind; [apply figs_kept_collect|intros cp].
  apply figs_kept_bind; [unfold Corners.save; figures|intros _].
  unfold Corners.farewell. figures.
Qed.

(** X15: a run of corner mode in which no click wait is interrupted ends,
    however it ends (declined, saved, interrupted at a prompt, image missing,
    input closed), with the figures open that were open before; a run
    interrupted in the click wait of its first image ends in
    [KeyboardInterrupt] with the figure of that image open. *)
Theorem corner_run_closes_unless_interrupted (w : world) :
  (calm w -> w_figs (Corners.main w).2 = w_figs w) /\
  (forall l rest img,
     w_fs w !! Corners.output_file = None ->
     w_stdin w = Line l :: rest ->
     w_fs w !! "Christinas World — Wyeth.jpeg" = Some (FImage img) ->
     interrupted 4 (session w) = true ->
     (Corners.main w).1 = Raise KeyboardInterrupt /\
     w_figs (Corners.main w).2 = w_figs w ++ [next_fig (w_figs w)]).
Proof.
  split; [intros Hcalm; by apply figs_kept_main|].
  intros l rest img Hnone Hin Himg Hint.
  unfold Corners.main, Corners.main_with. rewrite run_corners_greeting.
  unfold Corners.declined. steps. fields.
  change "painting_corners.npz" with Corners.output_file.
  rewrite bool_decide_eq_false_2 by (rewrite Hnone; by intros [? ?]). cbv iota. steps.
  cbn [Corners.collect Corners.image_files]. steps.
  rewrite (run_getitem Corners.paintings_wh 0 _ _ _ eq_refl). steps.
  rewrite (run_input _ l rest) by done. steps.
  erewrite bind_raise; [|apply (click_corners_interrupted _ _ _ img); fields; done].
  by fields.
Qed.

Lemma corner_run_closes_unless_interrupted_witness :
  w_figs (Corners.main hasty).2 = w_figs hasty /\
  ((Corners.main (World gallery [] [Line ""] [[Interrupt]] [])).1 = Raise KeyboardInterrupt /\
   w_figs (Corners.main (World gallery [] [Line ""] [[Interrupt]] [])).2 = [] ++ [next_fig []]).
Proof.
  split.
  - apply (proj1 (corner_run_closes_unless_interrupted hasty)). repeat constructor.
  - apply (proj2 (corner_run_closes_unless_interrupted
                    (World gallery [] [Line ""] [[Interrupt]] [])) "" [] [0%Z]).
    + vm_compute. reflexivity.
    + reflexivity.
    + vm_compute. reflexivity.
    + reflexivity.
Defined.
